(** * TimeSeriesChart: the charting core of the groundwater dashboard

    A shallow embedding of the [TimeSeriesChart] component: the trend
    estimator ([calculateTrendline]), the render model ([chartData]), the
    visibility and zoom handlers and the CSV export.

    JavaScript numbers are IEEE 754 binary64 values, modelled by Rocq's
    primitive floats; strings are [string]s, one character per code unit
    (code units below 256, on which the order of [String.compare] is the
    code-unit order used by [Array.prototype.sort]). *)

From Stdlib Require Import String Ascii List Bool Arith ZArith Lia.
From Stdlib Require Import Floats Uint63 DecimalString.
From Stdlib Require Import Sorted Permutation.
From Stdlib Require Import QArith Field Lqa.
Import ListNotations.

Close Scope Q_scope.
Open Scope nat_scope.

Set Implicit Arguments.

(** ** JavaScript arrays *)

Module Array.

Section Ops.
Variables A B : Type.

(** [arr.map((elt, index) => f(elt, index))], the index counted from [k]. *)
Fixpoint map_from (k : nat) (f : A -> nat -> B) (arr : list A) : list B :=
  match arr with
  | [] => []
  | elt :: rest => f elt k :: map_from (S k) f rest
  end.

Definition mapi (f : A -> nat -> B) (arr : list A) : list B :=
  map_from 0 f arr.

(** [arr.reduce((acc, elt, index) => f(acc, elt, index), init)]. *)
Fixpoint reduce_from (k : nat) (f : B -> A -> nat -> B) (arr : list A) (acc : B) : B :=
  match arr with
  | [] => acc
  | elt :: rest => reduce_from (S k) f rest (f acc elt k)
  end.

Definition reducei (f : B -> A -> nat -> B) (arr : list A) (init : B) : B :=
  reduce_from 0 f arr init.

(** [arr.reduce((acc, elt) => f(acc, elt), init)]. *)
Definition reduce (f : B -> A -> B) (arr : list A) (init : B) : B :=
  fold_left f arr init.
End Ops.

(** [arr.includes(s)] on an array of strings. *)
Definition includes (arr : list string) (s : string) : bool :=
  existsb (String.eqb s) arr.

End Array.

(** ** Numbers

    The arithmetic used by the trend estimator, as an interface: the
    component runs it on doubles; the same definition is read over the
    rationals to relate it to least squares. *)

Class Arith (num : Type) : Type := {
  of_index : nat -> num;        (* an array index or a length as a number *)
  add : num -> num -> num;
  sub : num -> num -> num;
  mul : num -> num -> num;
  div : num -> num -> num;
  undefined_num : num           (* an out-of-range read used as an operand *)
}.

Declare Scope num_scope.
Delimit Scope num_scope with num.
Infix "+" := add : num_scope.
Infix "-" := sub : num_scope.
Infix "*" := mul : num_scope.
Infix "/" := div : num_scope.

(** Doubles.  Indices stay far below 2^53, so the conversion is exact. *)
#[export] Instance float_arith : Arith float := {
  of_index := fun i => PrimFloat.of_uint63 (Uint63.of_Z (Z.of_nat i));
  add := PrimFloat.add;
  sub := PrimFloat.sub;
  mul := PrimFloat.mul;
  div := PrimFloat.div;
  undefined_num := PrimFloat.nan
}.

(** An index as a rational. *)
Definition idx (i : nat) : Q := inject_Z (Z.of_nat i).

(** Exact rationals; every read of the estimator is in range, so the
    operand standing for [undefined] is never used. *)
#[export] Instance Q_arith : Arith Q := {
  of_index := idx;
  add := Qplus;
  sub := Qminus;
  mul := Qmult;
  div := Qdiv;
  undefined_num := 0%Q
}.

(** ** Data model *)

(** A [Date]: its time value in milliseconds, [None] for an invalid date. *)
Definition Date : Type := option Z.

(** [x: number | Date | string]. *)
Inductive XValue : Type :=
| XNumber (v : float)
| XDate (d : Date)
| XString (s : string).

Module DataPoint.
Record t (num : Type) : Type := mk { x : XValue; y : num }.
Arguments mk {num} x y.
End DataPoint.

(** ** Trend estimator *)

Section Trendline.
Context {num : Type} {A : Arith num}.
Local Open Scope num_scope.

(** [calculateTrendline], lines 430-452. *)
Definition calculateTrendline (data : list (DataPoint.t num)) : list (DataPoint.t num) :=
  if (List.length data <? 2)%nat then [] else
  let xValues := Array.mapi (fun point index => of_index index) data in
  let yValues := List.map (fun point => DataPoint.y point) data in
  let n := of_index (List.length xValues) in
  let sumX := Array.reduce (fun a b => a + b) xValues (of_index 0) in
  let sumY := Array.reduce (fun a b => a + b) yValues (of_index 0) in
  let sumXY :=
    Array.reducei (fun a b i => a + b * nth i yValues undefined_num) xValues (of_index 0) in
  let sumXX := Array.reduce (fun a b => a + b * b) xValues (of_index 0) in
  let slope := (n * sumXY - sumX * sumY) / (n * sumXX - sumX * sumX) in
  let intercept := (sumY - slope * sumX) / n in
  Array.mapi
    (fun point index =>
       DataPoint.mk (DataPoint.x point) (slope * of_index index + intercept))
    data.

(** The least-squares formula as the specification writes it: for [n]
    points with index [xi] and value [yi],
    slope = (n Σ(xi yi) − Σxi Σyi) / (n Σ(xi²) − (Σxi)²) and
    intercept = (Σyi − slope Σxi) / n, each Σ running over
    i = 0 .. n-1 and adding its terms in that order. *)
Fixpoint Sigma_from (i count : nat) (term : nat -> num) (acc : num) : num :=
  match count with
  | O => acc
  | S c => Sigma_from (S i) c term (acc + term i)
  end.

Definition Sigma (n : nat) (term : nat -> num) : num :=
  Sigma_from 0 n term (of_index 0).

Section Formula.
Variable ys : list num.
Let n := List.length ys.
Let xi (i : nat) : num := of_index i.
Let yi (i : nat) : num := nth i ys undefined_num.

Definition ols_slope : num :=
  (of_index n * Sigma n (fun i => xi i * yi i) - Sigma n xi * Sigma n yi)
  / (of_index n * Sigma n (fun i => xi i * xi i) - Sigma n xi * Sigma n xi).

Definition ols_intercept : num :=
  (Sigma n yi - ols_slope * Sigma n xi) / of_index n.
End Formula.

(** The sum of the squared residuals of the line [y = a * i + b] on
    the points [(i, ys[i])]. *)
Definition squared_error (ys : list num) (a b : num) : num :=
  Sigma (List.length ys)
    (fun i => (nth i ys undefined_num - (a * of_index i + b))
              * (nth i ys undefined_num - (a * of_index i + b))).

End Trendline.

(** The series [(0,1),(1,2),(2,3),(3,4)] of the specification. *)
Definition exact_fit_series : list (DataPoint.t float) :=
  [ DataPoint.mk (XNumber 0%float) 1%float;
    DataPoint.mk (XNumber 1%float) 2%float;
    DataPoint.mk (XNumber 2%float) 3%float;
    DataPoint.mk (XNumber 3%float) 4%float ].

(** ** Series, datasets and component state *)

Inductive ChartType : Type := line | bar.

Inductive SeriesType : Type := TypeLine | TypeBar | TypeScatter.

Definition SeriesType_of_ChartType (t : ChartType) : SeriesType :=
  match t with line => TypeLine | bar => TypeBar end.

Module DataSeries.
Record t : Type := mk {
  id : string;
  label : string;
  data : list (DataPoint.t float);
  color : option string;
  hidden : option bool;
  type : option SeriesType;
  fill : option bool;
  tension : option float;
  borderWidth : option float;
  pointRadius : option float;
  yAxisID : option string
}.
End DataSeries.

Module TimeRange.
Record t : Type := mk { start : Date; end_ : Date }.
End TimeRange.

(** The dataset objects handed to Chart.js; [borderDash] is set on trend
    datasets only and [pointHoverRadius] on primary ones only. *)
Module Dataset.
Record t : Type := mk {
  label : string;
  data : list (DataPoint.t float);
  borderColor : string;
  backgroundColor : string;
  borderWidth : float;
  borderDash : option (list float);
  pointRadius : float;
  pointHoverRadius : option float;
  tension : float;
  fill : bool;
  yAxisID : string;
  type : SeriesType
}.
End Dataset.

Module Theme.
Record t : Type := mk { primary_main : string; secondary_main : string }.
End Theme.

(** What the component takes from outside the repository: the Chart.js
    instance it holds a handle to, and the built-in conversions to text. *)
Class ChartLibrary : Type := {
  ChartJS : Type;
  toBase64Image : ChartJS -> string
}.

Class Runtime : Type := {
  Number_toString : float -> string;   (* String(n) on a number *)
  Date_toISOString : Z -> string       (* toISOString() of a valid date *)
}.

(** The props the modelled code reads.  [onRangeChange] and [onExport] say
    whether the optional callback is supplied. *)
Module Props.
Record t : Type := mk {
  series : list DataSeries.t;
  title : option string;
  loading : bool;
  error : option string;
  onRangeChange : bool;
  enableZoom : bool;
  enableExport : bool;
  enableTrendline : bool;
  allowChartTypeSwitch : bool;
  defaultChartType : ChartType;
  onExport : bool
}.
End Props.

Inductive ExportKind : Type := Kind_png | Kind_csv.

Inductive ChartMethod : Type :=
| resetZoom
| zoom (factor : float)
| toBase64Image_call.

Section Component.
Context {lib : ChartLibrary} {rt : Runtime}.

(** The [useState] cells of the component, lines 283-292. *)
Record State : Type := mkState {
  chartType : ChartType;
  showTrendline : bool;
  showSettings : bool;
  visibleSeries : list string;
  chartInstance : option ChartJS;
  currentRange : TimeRange.t;
  isZoomed : bool
}.

Definition initialState (props : Props.t) : State :=
  {| chartType := Props.defaultChartType props;
     showTrendline := false;
     showSettings := false;
     visibleSeries := [];
     chartInstance := None;
     currentRange := TimeRange.mk None None;
     isZoomed := false |}.

Definition setChartType (v : ChartType) (st : State) : State :=
  mkState v (showTrendline st) (showSettings st) (visibleSeries st)
          (chartInstance st) (currentRange st) (isZoomed st).
Definition setShowTrendline (v : bool) (st : State) : State :=
  mkState (chartType st) v (showSettings st) (visibleSeries st)
          (chartInstance st) (currentRange st) (isZoomed st).
Definition setShowSettings (v : bool) (st : State) : State :=
  mkState (chartType st) (showTrendline st) v (visibleSeries st)
          (chartInstance st) (currentRange st) (isZoomed st).
Definition setVisibleSeries (update : list string -> list string) (st : State) : State :=
  mkState (chartType st) (showTrendline st) (showSettings st)
          (update (visibleSeries st))
          (chartInstance st) (currentRange st) (isZoomed st).
Definition setChartInstance (v : option ChartJS) (st : State) : State :=
  mkState (chartType st) (showTrendline st) (showSettings st) (visibleSeries st)
          v (currentRange st) (isZoomed st).
Definition setIsZoomed (v : bool) (st : State) : State :=
  mkState (chartType st) (showTrendline st) (showSettings st) (visibleSeries st)
          (chartInstance st) (currentRange st) v.

(** What a handler does to the outside, in order. *)
Inductive Effect : Type :=
| ChartCall (chart : ChartJS) (method : ChartMethod)
| NewBlob (content : string) (mime : string)
| Download (filename : string)
| CallOnRangeChange (range : TimeRange.t)
| CallOnExport (kind : ExportKind) (payload : string).

(** ** Truthiness: [a || b] and [a ? b : c] on optional fields *)

Definition string_truthy (o : option string) : bool :=
  match o with
  | Some s => negb (String.eqb s EmptyString)
  | None => false
  end.

Definition string_or (o : option string) (default : string) : string :=
  match o with
  | Some s => if String.eqb s EmptyString then default else s
  | None => default
  end.

Definition number_or (o : option float) (default : float) : float :=
  match o with
  | Some v => if (PrimFloat.is_nan v || PrimFloat.is_zero v)%bool then default else v
  | None => default
  end.

Definition bool_or (o : option bool) (default : bool) : bool :=
  match o with
  | Some true => true
  | _ => default
  end.

(** ** Effect and lifecycle handlers *)

(** The [useEffect] on [series], lines 295-299. *)
Definition initVisibleSeries (props : Props.t) (st : State) : State :=
  if (0 <? List.length (Props.series props))%nat then
    setVisibleSeries
      (fun _ =>
         List.map DataSeries.id
           (List.filter
              (fun s => negb (bool_or (DataSeries.hidden s) false))
              (Props.series props)))
      st
  else st.

(** [onChartRef], lines 302-307. *)
Definition onChartRef (chart : option ChartJS) (st : State) : State :=
  match chart with
  | Some c => setChartInstance (Some c) st
  | None => st
  end.

(** [handleChartTypeChange], lines 310-312. *)
Definition handleChartTypeChange (t : ChartType) (st : State) : State :=
  setChartType t st.

(** [handleSeriesToggle], lines 315-323. *)
Definition handleSeriesToggle (seriesId : string) (st : State) : State :=
  setVisibleSeries
    (fun prev =>
       if Array.includes prev seriesId then
         List.filter (fun id => negb (String.eqb id seriesId)) prev
       else
         prev ++ [seriesId])
    st.

(** [handleTrendlineToggle], lines 326-328. *)
Definition handleTrendlineToggle (st : State) : State :=
  setShowTrendline (negb (showTrendline st)) st.

(** [handleResetZoom], lines 331-344. *)
Definition handleResetZoom (props : Props.t) (st : State) : State * list Effect :=
  match chartInstance st with
  | Some chart =>
      (setIsZoomed false st,
       [ChartCall chart resetZoom]
       ++ (if Props.onRangeChange props
           then [CallOnRangeChange (TimeRange.mk None None)]
           else []))
  | None => (st, [])
  end.

(** [handleZoomIn] and [handleZoomOut], lines 347-360. *)
Definition handleZoomIn (st : State) : State * list Effect :=
  match chartInstance st with
  | Some chart =>
      (setIsZoomed true st, [ChartCall chart (zoom 0x1.199999999999ap+0%float)])  (* zoom(1.1) *)
  | None => (st, [])
  end.

Definition handleZoomOut (st : State) : State * list Effect :=
  match chartInstance st with
  | Some chart =>
      (setIsZoomed true st, [ChartCall chart (zoom 0x1.ccccccccccccdp-1%float)])  (* zoom(0.9) *)
  | None => (st, [])
  end.

(** [onPanComplete] and [onZoomComplete], lines 555-587; [xmin] and
    [xmax] are [new Date(xAxis.min)] and [new Date(xAxis.max)]. *)
Definition onZoomComplete (props : Props.t) (xmin xmax : Date) (st : State)
  : State * list Effect :=
  (setIsZoomed true st,
   if Props.onRangeChange props
   then [CallOnRangeChange (TimeRange.mk xmin xmax)]
   else []).

Definition onPanComplete (props : Props.t) (xmin xmax : Date) (st : State)
  : State * list Effect :=
  (setIsZoomed true st,
   if Props.onRangeChange props
   then [CallOnRangeChange (TimeRange.mk xmin xmax)]
   else []).

(** [handleExportPNG], lines 363-375; [today] is
    [format(new Date(), 'yyyy-MM-dd')]. *)
Definition handleExportPNG (props : Props.t) (today : string) (st : State)
  : list Effect :=
  match chartInstance st with
  | Some chart =>
      let url := toBase64Image chart in
      [ChartCall chart toBase64Image_call;
       Download (string_or (Props.title props) "chart" ++ "-" ++ today ++ ".png")%string]
      ++ (if Props.onExport props then [CallOnExport Kind_png url] else [])
  | None => []
  end.

(** ** CSV export *)

(** The small error monad of the export: [None] is a thrown exception. *)
Definition bind (X Y : Type) (c : option X) (k : X -> option Y) : option Y :=
  match c with
  | Some v => k v
  | None => None
  end.

(** [arr.forEach(elt => body)] threading the mutated variable [acc]. *)
Fixpoint forEach (X S : Type) (body : X -> S -> option S) (arr : list X) (acc : S)
  : option S :=
  match arr with
  | [] => Some acc
  | elt :: rest => bind (body elt acc) (forEach body rest)
  end.

(** [point.x instanceof Date ? point.x.toISOString() : String(point.x)];
    [toISOString] throws a RangeError on an invalid date. *)
Definition xText (x : XValue) : option string :=
  match x with
  | XDate (Some tv) => Some (Date_toISOString tv)
  | XDate None => None
  | XNumber v => Some (Number_toString v)
  | XString s => Some s
  end.

(** [Set.prototype.add] on a [Set<string>] kept in insertion order. *)
Definition Set_add (set : list string) (v : string) : list string :=
  if Array.includes set v then set else set ++ [v].

(** [Array.prototype.sort()] with the default comparison, which orders
    strings by their code units. *)
Fixpoint sort_insert (v : string) (sorted : list string) : list string :=
  match sorted with
  | [] => [v]
  | w :: rest => if String.leb v w then v :: sorted else w :: sort_insert v rest
  end.

Definition Array_sort (arr : list string) : list string :=
  fold_right sort_insert [] arr.

(** The code-unit order on strings. *)
Definition string_le (a b : string) : Prop := String.leb a b = true.
Definition string_lt (a b : string) : Prop := String.ltb a b = true.

(** [s.data.find(p => textOf(p.x) === xValue)]. *)
Fixpoint findPoint (xValue : string) (points : list (DataPoint.t float))
  : option (option (DataPoint.t float)) :=
  match points with
  | [] => Some None
  | p :: rest =>
      bind (xText (DataPoint.x p))
           (fun pointX =>
              if String.eqb pointX xValue then Some (Some p)
              else findPoint xValue rest)
  end.

(** Lines 382-390: the distinct x values of all series. *)
Definition allXValues (series : list DataSeries.t) : option (list string) :=
  forEach
    (fun s =>
       forEach
         (fun point set => bind (xText (DataPoint.x point))
                                (fun xValue => Some (Set_add set xValue)))
         (DataSeries.data s))
    series [].

(** Line 407: [point ? String(point.y) : ''], the cell of a series. *)
Definition csvCell (point : option (DataPoint.t float)) : string :=
  match point with
  | Some p => Number_toString (DataPoint.y p)
  | None => EmptyString
  end.

(** Lines 400-408: the cells of the row of [xValue]. *)
Definition csvRow (series : list DataSeries.t) (xValue : string) : option (list string) :=
  forEach
    (fun s row =>
       bind (findPoint xValue (DataSeries.data s))
            (fun point => Some (row ++ [csvCell point])))
    series [xValue].

(** [cell] is the cell of series [s] in the row of [xValue]: the y of
    the first point of [s] at that x, or the empty text. *)
Definition cell_of (xValue : string) (s : DataSeries.t) (cell : string) : Prop :=
  exists point, findPoint xValue (DataSeries.data s) = Some point
                /\ cell = csvCell point.

(** Lines 382-411: the data rows, in the order they are written. *)
Definition csvRows (series : list DataSeries.t) : option (list (list string)) :=
  bind (allXValues series)
       (fun all =>
          let sortedXValues := Array_sort all in
          forEach
            (fun xValue rows => bind (csvRow series xValue)
                                     (fun row => Some (rows ++ [row])))
            sortedXValues []).

Definition newline : string := String (ascii_of_nat 10) EmptyString.

Definition csvHeader (series : list DataSeries.t) : string :=
  ("Date," ++ String.concat "," (List.map DataSeries.label series) ++ newline)%string.

Definition csvText (series : list DataSeries.t) : option string :=
  bind (csvRows series)
       (fun rows =>
          Some (fold_left
                  (fun csv row => (csv ++ String.concat "," row ++ newline)%string)
                  rows (csvHeader series))).

(** [handleExportCSV], lines 378-427: [None] when it throws, otherwise
    what it does, in order. *)
Definition handleExportCSV (props : Props.t) (today : string) (st : State)
  : option (list Effect) :=
  let series := Props.series props in
  if (List.length series =? 0)%nat then Some [] else
  bind (csvText series)
       (fun csv =>
          Some ([NewBlob csv "text/csv;charset=utf-8;";
                 Download (string_or (Props.title props) "chart-data"
                           ++ "-" ++ today ++ ".csv")%string]
                ++ (if Props.onExport props then [CallOnExport Kind_csv csv] else []))).

(** ** Render model *)

Definition suffix_for (t : option SeriesType) : string :=
  match t with
  | Some TypeBar => "CC"
  | _ => "33"
  end.

Definition primaryDataset (theme : Theme.t) (chartType : ChartType) (s : DataSeries.t)
  : Dataset.t :=
  {| Dataset.label := DataSeries.label s;
     Dataset.data :=
       List.map (fun point => DataPoint.mk (DataPoint.x point) (DataPoint.y point))
                (DataSeries.data s);
     Dataset.borderColor := string_or (DataSeries.color s) (Theme.primary_main theme);
     Dataset.backgroundColor :=
       if string_truthy (DataSeries.color s)
       then (string_or (DataSeries.color s) EmptyString
             ++ suffix_for (DataSeries.type s))%string
       else (Theme.primary_main theme ++ suffix_for (DataSeries.type s))%string;
     Dataset.borderWidth := number_or (DataSeries.borderWidth s) 2%float;
     Dataset.borderDash := None;
     Dataset.pointRadius := number_or (DataSeries.pointRadius s) 3%float;
     Dataset.pointHoverRadius :=
       Some (number_or (DataSeries.pointRadius s) 3%float + 2)%float;
     Dataset.tension :=
       number_or (DataSeries.tension s) 0x1.999999999999ap-4%float;  (* 0.1 *)
     Dataset.fill := bool_or (DataSeries.fill s) false;
     Dataset.yAxisID := string_or (DataSeries.yAxisID s) "y";
     Dataset.type :=
       match DataSeries.type s with
       | Some t => t
       | None => SeriesType_of_ChartType chartType
       end |}.

Definition trendDataset (theme : Theme.t) (s : DataSeries.t) : Dataset.t :=
  let trendData := calculateTrendline (DataSeries.data s) in
  {| Dataset.label := (DataSeries.label s ++ " (Trend)")%string;
     Dataset.data := trendData;
     Dataset.borderColor :=
       if string_truthy (DataSeries.color s)
       then (string_or (DataSeries.color s) EmptyString ++ "99")%string
       else (Theme.secondary_main theme ++ "99")%string;
     Dataset.backgroundColor := "transparent";
     Dataset.borderWidth := 2%float;
     Dataset.borderDash := Some [5%float; 5%float];
     Dataset.pointRadius := 0%float;
     Dataset.pointHoverRadius := None;
     Dataset.tension := 0%float;
     Dataset.fill := false;
     Dataset.yAxisID := string_or (DataSeries.yAxisID s) "y";
     Dataset.type := TypeLine |}.

Record ChartData : Type := mkChartData { datasets : list Dataset.t }.

(** [chartData], lines 455-501. *)
Definition chartData (theme : Theme.t) (props : Props.t) (st : State) : ChartData :=
  let series := Props.series props in
  {| datasets :=
       List.map (primaryDataset theme (chartType st))
         (List.filter (fun s => Array.includes (visibleSeries st) (DataSeries.id s)) series)
       ++ (if showTrendline st then
             List.map (trendDataset theme)
               (List.filter
                  (fun s => Array.includes (visibleSeries st) (DataSeries.id s))
                  series)
           else []) |}.

(** The filter of [chartData]: [visibleSeries.includes(s.id)]. *)
Definition visible_in (st : State) (s : DataSeries.t) : bool :=
  Array.includes (visibleSeries st) (DataSeries.id s).

(** ** The rendered controls

    Which view is returned (lines 702-791), and which handler each event
    reaches: a control that is not rendered, or is disabled, has no
    handler to run. *)

Inductive View : Type := LoadingView | ErrorView | EmptyView | ChartView.

Definition view (props : Props.t) : View :=
  if Props.loading props then LoadingView
  else if string_truthy (Props.error props) then ErrorView
  else if ((List.length (Props.series props) =? 0)%nat
           || forallb (fun s => (List.length (DataSeries.data s) =? 0)%nat)
                      (Props.series props))%bool
       then EmptyView
  else ChartView.

Inductive Event : Type :=
| SeriesEffect
| ChartRef (chart : option ChartJS)
| ClickChartType (t : ChartType)
| ClickZoomIn
| ClickZoomOut
| ClickResetZoom
| PanComplete (xmin xmax : Date)
| ZoomComplete (xmin xmax : Date)
| ClickExportPNG (today : string)
| ClickExportCSV (today : string)
| ClickTrend
| ClickSettings
| ClickSeriesChip (seriesId : string).

Definition is_ChartView (props : Props.t) : bool :=
  match view props with ChartView => true | _ => false end.

(** One event: [None] when the handler throws. *)
Definition dispatch (props : Props.t) (st : State) (ev : Event)
  : option (State * list Effect) :=
  match ev with
  | SeriesEffect => Some (initVisibleSeries props st, [])
  | _ =>
    if negb (is_ChartView props) then Some (st, []) else
    match ev with
    | SeriesEffect => Some (st, [])
    | ChartRef chart => Some (onChartRef chart st, [])
    | ClickChartType t =>
        (* lines 819-838 *)
        if Props.allowChartTypeSwitch props
        then Some (handleChartTypeChange t st, [])
        else Some (st, [])
    | ClickZoomIn =>
        (* lines 841-863 *)
        if Props.enableZoom props then Some (handleZoomIn st) else Some (st, [])
    | ClickZoomOut =>
        if Props.enableZoom props then Some (handleZoomOut st) else Some (st, [])
    | ClickResetZoom =>
        (* [disabled={!isZoomed}], line 857 *)
        if (Props.enableZoom props && isZoomed st)%bool
        then Some (handleResetZoom props st)
        else Some (st, [])
    | PanComplete xmin xmax =>
        if Props.enableZoom props
        then Some (onPanComplete props xmin xmax st)
        else Some (st, [])
    | ZoomComplete xmin xmax =>
        if Props.enableZoom props
        then Some (onZoomComplete props xmin xmax st)
        else Some (st, [])
    | ClickExportPNG today =>
        (* lines 866-887 *)
        if Props.enableExport props
        then Some (st, handleExportPNG props today st)
        else Some (st, [])
    | ClickExportCSV today =>
        if Props.enableExport props
        then bind (handleExportCSV props today st) (fun trace => Some (st, trace))
        else Some (st, [])
    | ClickTrend =>
        (* lines 890-902 *)
        if Props.enableTrendline props
        then Some (handleTrendlineToggle st, [])
        else Some (st, [])
    | ClickSettings => Some (setShowSettings (negb (showSettings st)) st, [])
    | ClickSeriesChip seriesId =>
        (* lines 918-953: one chip per series, shown with the settings
           panel *)
        if (showSettings st
            && existsb (fun s => String.eqb (DataSeries.id s) seriesId)
                       (Props.series props))%bool
        then Some (handleSeriesToggle seriesId st, [])
        else Some (st, [])
    end
  end.

(** A run of events from a state; it stops at the first exception. *)
Fixpoint run (props : Props.t) (st : State) (events : list Event)
  : option (State * list Effect) :=
  match events with
  | [] => Some (st, [])
  | ev :: rest =>
      bind (dispatch props st ev)
           (fun '(st', trace) =>
              bind (run props st' rest)
                   (fun '(st'', trace') => Some (st'', trace ++ trace')))
  end.
End Component.

(** ** A runtime to evaluate on

    The built-in conversions on the values used in the examples below:
    [String(n)] on NaN, the infinities and the integers of magnitude up to
    2^53 (ECMAScript prints those as plain decimals), and [toISOString]
    on every valid time value.  The digits of other numbers (a fractional
    part, or a magnitude above 2^53) are not modelled and print as [#];
    nothing below evaluates the runtime on one. *)
Module Reference.
Local Open Scope Z_scope.

Definition integral_value (v : float) : option Z :=
  match Prim2SF v with
  | S754_zero _ => Some 0
  | S754_finite negative m e =>
      let magnitude :=
        if 0 <=? e then Some (Z.pos m * 2 ^ e)
        else if Z.pos m mod 2 ^ (- e) =? 0 then Some (Z.pos m / 2 ^ (- e))
        else None in
      option_map (fun z => if negative then - z else z) magnitude
  | _ => None
  end.

Definition decimal (z : Z) : string := NilZero.string_of_int (Z.to_int z).

Definition Number_toString (v : float) : string :=
  match Prim2SF v with
  | S754_nan => "NaN"
  | S754_infinity false => "Infinity"
  | S754_infinity true => "-Infinity"
  | _ =>
      match integral_value v with
      | Some z => if Z.abs z <=? 2 ^ 53 then decimal z else "#"
      | None => "#"
      end
  end.

(** [n] in decimal, padded with zeros to [width] digits ([0 <= n]). *)
Definition padded (width : nat) (n : Z) : string :=
  let digits := decimal n in
  (string_of_list_ascii (repeat "0"%char (width - String.length digits)) ++ digits)%string.

(** The proleptic Gregorian date of a day number counted from 1970-01-01. *)
Definition civil_from_days (days : Z) : Z * Z * Z :=
  let z := days + 719468 in
  let era := z / 146097 in
  let doe := z - era * 146097 in
  let yoe := (doe - doe / 1460 + doe / 36524 - doe / 146096) / 365 in
  let doy := doe - (365 * yoe + yoe / 4 - yoe / 100) in
  let mp := (5 * doy + 2) / 153 in
  let d := doy - (153 * mp + 2) / 5 + 1 in
  let m := if mp <? 10 then mp + 3 else mp - 9 in
  let y := yoe + era * 400 + (if m <=? 2 then 1 else 0) in
  (y, m, d).

Definition Date_toISOString (tv : Z) : string :=
  let '(y, m, d) := civil_from_days (tv / 86400000) in
  let ms := tv mod 86400000 in
  let year :=
    if (0 <=? y) && (y <=? 9999) then padded 4 y
    else ((if (y <? 0)%Z then "-" else "+") ++ padded 6 (Z.abs y))%string in
  (year ++ "-" ++ padded 2 m ++ "-" ++ padded 2 d
   ++ "T" ++ padded 2 (ms / 3600000)
   ++ ":" ++ padded 2 (ms / 60000 mod 60)
   ++ ":" ++ padded 2 (ms / 1000 mod 60)
   ++ "." ++ padded 3 (ms mod 1000) ++ "Z")%string.

(** A chart instance is known by the name of its canvas. *)
#[export] Instance chart : ChartLibrary := {
  ChartJS := string;
  toBase64Image := fun canvas => ("data:image/png;base64," ++ canvas)%string
}.

#[export] Instance runtime : Runtime := {
  Number_toString := Number_toString;
  Date_toISOString := Date_toISOString
}.
End Reference.

(** ** Sample inputs *)

Module Sample.
Import Reference.

Definition theme : Theme.t := Theme.mk "#1976d2" "#9c27b0".

Definition point (x y : float) : DataPoint.t float := DataPoint.mk (XNumber x) y.

Definition series_of (id label : string) (data : list (DataPoint.t float))
  : DataSeries.t :=
  DataSeries.mk id label data None None None None None None None None.

(** Defaults of the component, both callbacks supplied. *)
Definition props_of (series : list DataSeries.t) : Props.t :=
  Props.mk series None false None true true true true true line true.

Definition canvas : ChartJS := "canvas"%string.

Definition state_of (visible : list string) (trend zoomed : bool)
  (chart : option ChartJS) : State :=
  mkState line trend false visible chart (TimeRange.mk None None) zoomed.

(** Series A with x-values 1, 2 and series B with x-values 2, 3. *)
Definition seriesA : DataSeries.t :=
  series_of "A" "A" [point 1 10; point 2 20].
Definition seriesB : DataSeries.t :=
  series_of "B" "B" [point 2 5; point 3 7].

(** One point only. *)
Definition single : DataSeries.t := series_of "level" "Level" [point 1 10].

(** A NaN among valid points. *)
Definition gapped : DataSeries.t :=
  series_of "level" "Level" [point 1 1; point 2 nan; point 3 3].

(** Ordinal x-values 2 and 10. *)
Definition ordinal : DataSeries.t :=
  series_of "A" "A" [point 2 10; point 10 20].

(** The three series of the station page scenario. *)
Definition waterLevel : DataSeries.t :=
  series_of "waterLevel" "Water Level" [point 1 12; point 2 11; point 3 13].
Definition rainfall : DataSeries.t :=
  series_of "rainfall" "Rainfall" [point 1 0; point 2 4; point 3 1].
Definition temperature : DataSeries.t :=
  series_of "temperature" "Temperature" [point 1 21; point 2 23; point 3 22].
End Sample.

(** ** The chart options *)

Module Threshold.
Record t : Type := mk {
  value : float;
  label : string;
  color : string;
  yAxisID : option string
}.
End Threshold.

(** The axis props, with their defaults applied (lines 262-267). *)
Module AxisProps.
Record t : Type := mk {
  thresholds : list Threshold.t;
  xAxisLabel : string;
  yAxisLabel : string;
  yAxisUnit : option string;
  secondaryYAxisLabel : option string;
  secondaryYAxisUnit : option string
}.
End AxisProps.

Module Annotation.
Record t : Type := mk {
  yMin : float;
  yMax : float;
  borderColor : string;
  content : string;
  yScaleID : string
}.
End Annotation.

(** [chartOptions.plugins.annotation.annotations], lines 591-610. *)
Definition annotations (p : AxisProps.t) : list Annotation.t :=
  List.map
    (fun threshold =>
       Annotation.mk (Threshold.value threshold) (Threshold.value threshold)
                     (Threshold.color threshold) (Threshold.label threshold)
                     (string_or (Threshold.yAxisID threshold) "y"))
    (AxisProps.thresholds p).

(** The thresholds that [afterDraw] marks on the y axis, lines 655-669:
    [!threshold.yAxisID || threshold.yAxisID === 'y']. *)
Definition yAxisMarkers (p : AxisProps.t) : list Threshold.t :=
  List.filter
    (fun threshold =>
       (negb (string_truthy (Threshold.yAxisID threshold))
        || String.eqb (string_or (Threshold.yAxisID threshold) EmptyString) "y")%bool)
    (AxisProps.thresholds p).

(** ** The station page, which builds the series of the chart *)

Module TimeSeriesDataPoint.
Record t : Type := mk {
  timestamp : string;
  waterLevel : float;
  rainfall : option float;
  temperature : option float;
  status : option string
}.
End TimeSeriesDataPoint.

(** [point.rainfall !== undefined]. *)
Definition has_rainfall (point : TimeSeriesDataPoint.t) : bool :=
  match TimeSeriesDataPoint.rainfall point with
  | Some _ => true
  | None => false
  end.

Module StationDetails.

Section Page.
(** [new Date(text)], and the palette colours of the theme. *)
Variable Date_of_string : string -> Date.
Variables primary_main info_main : string.

(** [chartData] of the station page, lines 334-370. *)
Definition chartData (timeSeriesData : list TimeSeriesDataPoint.t) : list DataSeries.t :=
  if (List.length timeSeriesData =? 0)%nat then [] else
  let waterLevelSeries :=
    DataSeries.mk "waterLevel" "Water Level"
      (List.map
         (fun point =>
            DataPoint.mk (XDate (Date_of_string (TimeSeriesDataPoint.timestamp point)))
                         (TimeSeriesDataPoint.waterLevel point))
         timeSeriesData)
      (Some primary_main) None None (Some true) None None None None in
  let series := [waterLevelSeries] in
  let rainfallData :=
    List.map
      (fun point =>
         DataPoint.mk
           (XDate (Date_of_string (TimeSeriesDataPoint.timestamp point)))
           (match TimeSeriesDataPoint.rainfall point with
            | Some rainfall => rainfall
            | None => PrimFloat.nan   (* excluded by the filter *)
            end))
      (List.filter has_rainfall timeSeriesData) in
  if (0 <? List.length rainfallData)%nat then
    series ++ [DataSeries.mk "rainfall" "Rainfall" rainfallData
                 (Some info_main) None (Some TypeBar) None None None None
                 (Some "y1"%string)]
  else series.
End Page.

End StationDetails.

(** ** Re-renders

    The parent can render the component again with other props.  The
    state cells are kept.  When [series] is another array, the effect of
    lines 295-299 is scheduled again: the component is first rendered
    with the new props and the state as it was, and the effect runs after
    that render. *)

Section Session.
Context {lib : ChartLibrary} {rt : Runtime}.

(** [next] with the [series] array of the render before. *)
Definition keep_series (props next : Props.t) : Props.t :=
  Props.mk (Props.series props) (Props.title next) (Props.loading next)
           (Props.error next) (Props.onRangeChange next) (Props.enableZoom next)
           (Props.enableExport next) (Props.enableTrendline next)
           (Props.allowChartTypeSwitch next) (Props.defaultChartType next)
           (Props.onExport next).

(** A mounted component: the props of its last render, its state cells,
    and whether the effect on [series] is still to run. *)
Record Mounted : Type := mkMounted {
  lastProps : Props.t;
  cells : State;
  effectPending : bool
}.

(** The first render: the initial state, the effect still to run. *)
Definition mount (props : Props.t) : Mounted :=
  mkMounted props (initialState props) true.

Inductive Step : Type :=
| Fire (ev : Event)
| NewSeries (next : Props.t)    (* a render with another [series] array *)
| SameSeries (next : Props.t).  (* a render with the same [series] array *)

Definition is_SeriesEffect (ev : Event) : bool :=
  match ev with SeriesEffect => true | _ => false end.

(** One step: [None] when a handler throws. *)
Definition step (m : Mounted) (s : Step) : option (Mounted * list Effect) :=
  match s with
  | Fire ev =>
      bind (dispatch (lastProps m) (cells m) ev)
           (fun '(st', trace) =>
              Some (mkMounted (lastProps m) st'
                              (if is_SeriesEffect ev then false else effectPending m),
                    trace))
  | NewSeries next => Some (mkMounted next (cells m) true, [])
  | SameSeries next =>
      Some (mkMounted (keep_series (lastProps m) next) (cells m) (effectPending m), [])
  end.

(** The component and the trace after the steps; it stops at the first
    exception. *)
Fixpoint session (m : Mounted) (steps : list Step) : option (Mounted * list Effect) :=
  match steps with
  | [] => Some (m, [])
  | s :: rest =>
      bind (step m s)
           (fun '(m', trace) =>
              bind (session m' rest)
                   (fun '(m'', trace') => Some (m'', trace ++ trace')))
  end.

(** Line 1042, inside the chart view: the caption adds "No data series
    selected..." when [visibleSeries.length === 0]. *)
Definition noSeriesCaption (props : Props.t) (st : State) : bool :=
  (is_ChartView props && (List.length (visibleSeries st) =? 0)%nat)%bool.

(** With a series supplied, every visible id is the id of a supplied
    series, and the visible list has no duplicate when the ids have
    none. *)
Definition visible_ok (props : Props.t) (st : State) : Prop :=
  Props.series props <> [] ->
  incl (visibleSeries st) (List.map DataSeries.id (Props.series props))
  /\ (NoDup (List.map DataSeries.id (Props.series props)) -> NoDup (visibleSeries st)).

(** Once the effect has run, the visible list fits the series. *)
Definition settled_ok (m : Mounted) : Prop :=
  effectPending m = false -> visible_ok (lastProps m) (cells m).

(** The render model of a mounted component. *)
Definition rendered (theme : Theme.t) (m : Mounted) : list Dataset.t :=
  datasets (chartData theme (lastProps m) (cells m)).
End Session.

(** ** The exported table, as text *)

Section Table.
Context {rt : Runtime}.

(** [p] is the first point of [points] whose x text is [xValue]. *)
Definition first_at (xValue : string) (points : list (DataPoint.t float))
  (p : DataPoint.t float) : Prop :=
  exists before after,
    points = before ++ p :: after
    /\ xText (DataPoint.x p) = Some xValue
    /\ forall q, In q before -> xText (DataPoint.x q) <> Some xValue.

(** The lines of the rows: the cells of a row joined by commas, one row
    per line. *)
Definition csvLines (rows : list (list string)) : string :=
  fold_right (fun row rest => (String.concat "," row ++ newline ++ rest)%string)
             EmptyString rows.
End Table.

(** ** Straight lines, on doubles *)

(** An integer as a double; exact for magnitudes up to 2^53. *)
Definition float_of_Z (z : Z) : float :=
  if (z <? 0)%Z
  then PrimFloat.opp (PrimFloat.of_uint63 (Uint63.of_Z (- z)))
  else PrimFloat.of_uint63 (Uint63.of_Z z).

(** The points [(i, m i + c)], [i = 0 .. n-1]. *)
Definition integer_line (m c : Z) (n : nat) : list (DataPoint.t float) :=
  List.map
    (fun i => DataPoint.mk (XNumber (float_of_Z (Z.of_nat i)))
                           (float_of_Z (m * Z.of_nat i + c)))
    (seq 0 n).

(** [q.y === p.y], point by point, on lists of the same length. *)
Fixpoint same_ys (ps qs : list (DataPoint.t float)) : bool :=
  match ps, qs with
  | [], [] => true
  | p :: ps', q :: qs' =>
      (PrimFloat.eqb (DataPoint.y q) (DataPoint.y p) && same_ys ps' qs')%bool
  | _, _ => false
  end.

(** The integers [-bound .. bound]. *)
Definition integers_upto (bound : nat) : list Z :=
  List.map (fun k => (Z.of_nat k - Z.of_nat bound)%Z) (seq 0 (2 * bound + 1)).

(** The trend of every line [y = m i + c] with [|m|, |c| <= bound] on
    [2 .. 2 + sizes - 1] points has the y-values of the line. *)
Definition integer_lines_kept (bound sizes : nat) : bool :=
  forallb
    (fun n =>
       forallb
         (fun m =>
            forallb
              (fun c => same_ys (integer_line m c n)
                                (calculateTrendline (integer_line m c n)))
              (integers_upto bound))
         (integers_upto bound))
    (seq 2 sizes).

(** ** Kinds of effects *)

Section EffectKinds.
Context {lib : ChartLibrary}.

(** A callback of the parent is called only if it was supplied. *)
Definition supplied (props : Props.t) (e : Effect) : Prop :=
  match e with
  | CallOnRangeChange _ => Props.onRangeChange props = true
  | CallOnExport _ _ => Props.onExport props = true
  | _ => True
  end.

(** The effects of zooming: a zoom or a reset on the chart, or a range
    notification. *)
Definition zoom_effect (e : Effect) : bool :=
  match e with
  | ChartCall _ resetZoom => true
  | ChartCall _ (zoom _) => true
  | CallOnRangeChange _ => true
  | _ => false
  end.

(** The effects of exporting: a chart capture, a blob, a download or
    an export notification. *)
Definition export_effect (e : Effect) : bool :=
  match e with
  | ChartCall _ toBase64Image_call => true
  | NewBlob _ _ => true
  | Download _ => true
  | CallOnExport _ _ => true
  | _ => false
  end.
End EffectKinds.

(** Some point of the series has an invalid date as its x. *)
Definition has_invalid_date (series : list DataSeries.t) : Prop :=
  exists s p, In s series /\ In p (DataSeries.data s) /\ DataPoint.x p = XDate None.

(** ** More sample inputs *)

Module Cases.
Import Reference.

(** A series whose second point has an invalid date. *)
Definition broken : DataSeries.t :=
  Sample.series_of "level" "Level"
    [ DataPoint.mk (XDate (Some 0%Z)) 1%float;
      DataPoint.mk (XDate None) 2%float ].

(** A hidden series. *)
Definition hiddenB : DataSeries.t :=
  DataSeries.mk "B" "B" [Sample.point 2 5; Sample.point 3 7]
                None (Some true) None None None None None None.

(** Neither callback supplied. *)
Definition silent (series : list DataSeries.t) : Props.t :=
  Props.mk series None false None false true true true true line false.

(** Zoom disabled. *)
Definition fixed (series : list DataSeries.t) : Props.t :=
  Props.mk series None false None true false true true true line true.

(** Export disabled. *)
Definition closed (series : list DataSeries.t) : Props.t :=
  Props.mk series None false None true true false true true line true.

(** Three readings of a station, the second without rainfall. *)
Definition readings : list TimeSeriesDataPoint.t :=
  [ TimeSeriesDataPoint.mk "2024-01-01" 12 (Some 0%float) None None;
    TimeSeriesDataPoint.mk "2024-01-02" 11 None None None;
    TimeSeriesDataPoint.mk "2024-01-03" 13 (Some 4%float) None None ].

(** [new Date(text)] on the three dates above; any other text is taken
    as unparsable. *)
Definition Date_of_string (text : string) : Date :=
  if String.eqb text "2024-01-01" then Some 1704067200000%Z
  else if String.eqb text "2024-01-02" then Some 1704153600000%Z
  else if String.eqb text "2024-01-03" then Some 1704240000000%Z
  else None.

Definition station_series : list DataSeries.t :=
  StationDetails.chartData Date_of_string "#1976d2" "#0288d1" readings.

(** Three points on the line [y = 2 i + 1], over the rationals. *)
Definition line_2i_plus_1 : list (DataPoint.t Q) :=
  [ DataPoint.mk (XString "a") 1%Q;
    DataPoint.mk (XString "b") 3%Q;
    DataPoint.mk (XString "c") 5%Q ].

(** The constant series 0.1, 0.1, 0.1, on doubles. *)
Definition tenths : list (DataPoint.t float) :=
  [ Sample.point 0 0x1.999999999999ap-4;
    Sample.point 1 0x1.999999999999ap-4;
    Sample.point 2 0x1.999999999999ap-4 ].

(** The series 0, 4, 1, on doubles. *)
Definition zigzag : list (DataPoint.t float) :=
  [ Sample.point 0 0; Sample.point 1 4; Sample.point 2 1 ].
End Cases.

Example trend_exact_fit :
  calculateTrendline exact_fit_series = exact_fit_series.
Proof. vm_compute. reflexivity. Qed.

(** ** The estimator computes the specified formula *)

Section ArrayFacts.
Variables T B : Type.

Lemma map_from_length (f : T -> nat -> B) (arr : list T) (k : nat) :
  List.length (Array.map_from k f arr) = List.length arr.
Proof.
  revert k; induction arr as [|elt rest IH]; intro k; simpl; [reflexivity|].
  now rewrite IH.
Qed.

Lemma map_from_nth_error (f : T -> nat -> B) (arr : list T) (k i : nat) :
  nth_error (Array.map_from k f arr) i =
  option_map (fun elt => f elt (k + i)) (nth_error arr i).
Proof.
  revert k i; induction arr as [|elt rest IH]; intros k [|i]; simpl; try reflexivity.
  - now rewrite Nat.add_0_r.
  - rewrite IH. now rewrite Nat.add_succ_r.
Qed.

Lemma reduce_as_reduce_from (f : B -> T -> B) (arr : list T) (k : nat) (acc : B) :
  Array.reduce f arr acc = Array.reduce_from k (fun a b _ => f a b) arr acc.
Proof.
  unfold Array.reduce.
  revert k acc; induction arr as [|elt rest IH]; intros k acc; simpl; [reflexivity|].
  apply IH.
Qed.
End ArrayFacts.

Section TrendlineFacts.
Context {num : Type} {A : Arith num}.
Local Open Scope num_scope.

(** Folding over the index array [0, 1, ..] adds the terms in order. *)
Lemma reduce_indices (T : Type) (g : num -> nat -> num) (data : list T) (k : nat) (acc : num) :
  Array.reduce_from k (fun a b i => a + g b i)
    (Array.map_from k (fun (_ : T) index => of_index index) data) acc =
  Sigma_from k (List.length data) (fun i => g (of_index i) i) acc.
Proof.
  revert k acc; induction data as [|elt rest IH]; intros k acc; simpl; [reflexivity|].
  apply IH.
Qed.

(** Folding over the values adds [ys[0]], [ys[1]], .. in order. *)
Lemma reduce_values (pre suf : list num) (acc : num) :
  Array.reduce (fun a b => a + b) suf acc =
  Sigma_from (List.length pre) (List.length suf)
    (fun i => nth i (pre ++ suf) undefined_num) acc.
Proof.
  unfold Array.reduce.
  revert pre acc; induction suf as [|v rest IH]; intros pre acc; simpl; [reflexivity|].
  rewrite app_nth2 by lia. rewrite Nat.sub_diag. simpl.
  specialize (IH (pre ++ [v]) (acc + v)).
  rewrite <- app_assoc, length_app in IH. simpl in IH.
  rewrite Nat.add_1_r in IH. exact IH.
Qed.

Lemma calculateTrendline_short (data : list (DataPoint.t num)) :
  List.length data < 2 -> calculateTrendline data = [].
Proof.
  intro H. unfold calculateTrendline.
  destruct (Nat.ltb_spec (List.length data) 2); [reflexivity | lia].
Qed.

Lemma calculateTrendline_formula (data : list (DataPoint.t num)) :
  2 <= List.length data ->
  let ys := List.map (fun point => DataPoint.y point) data in
  calculateTrendline data =
  Array.mapi
    (fun point index =>
       DataPoint.mk (DataPoint.x point)
         (ols_slope ys * of_index index + ols_intercept ys))
    data.
Proof.
  intros Hlen ys. unfold calculateTrendline.
  destruct (Nat.ltb_spec (List.length data) 2) as [Hlt|_]; [lia|].
  unfold ols_intercept, ols_slope, Sigma, Array.mapi, Array.reducei.
  rewrite !(reduce_as_reduce_from _ (Array.map_from _ _ _) 0).
  rewrite (reduce_indices (fun b _ => b)).
  rewrite (reduce_indices (fun b _ => b * b)).
  rewrite (reduce_indices (fun b i => b * nth i (List.map (fun point => DataPoint.y point) data) undefined_num)).
  rewrite (reduce_values [] (List.map (fun point => DataPoint.y point) data)).
  rewrite map_from_length.
  subst ys. rewrite !length_map. simpl.
  reflexivity.
Qed.
End TrendlineFacts.

(** ** Over the rationals the formula minimises the squared error *)

Section SigmaFacts.
Context {num : Type} {A : Arith num}.

Lemma Sigma_from_succ (term : nat -> num) (count i : nat) (acc : num) :
  Sigma_from i (S count) term acc = add (Sigma_from i count term acc) (term (i + count)).
Proof.
  revert i acc; induction count as [|c IH]; intros i acc.
  - simpl. now rewrite Nat.add_0_r.
  - change (Sigma_from i (S (S c)) term acc)
      with (Sigma_from (S i) (S c) term (add acc (term i))).
    rewrite IH. simpl. now rewrite Nat.add_succ_r.
Qed.

Lemma Sigma_succ (term : nat -> num) (n : nat) :
  Sigma (S n) term = add (Sigma n term) (term n).
Proof. unfold Sigma. now rewrite Sigma_from_succ. Qed.
End SigmaFacts.

Section LeastSquares.
Local Open Scope Q_scope.

Lemma idx_succ (n : nat) : idx (S n) == idx n + 1.
Proof. unfold idx. rewrite Nat2Z.inj_succ. unfold Z.succ. now rewrite inject_Z_plus. Qed.

Lemma Sigma_Q_succ (term : nat -> Q) (n : nat) :
  Sigma n term + term n == Sigma (S n) term.
Proof. rewrite Sigma_succ. reflexivity. Qed.

(** Closed forms of the sums over the indices. *)
Lemma sum_indices (n : nat) :
  2 * Sigma n idx == idx n * (idx n - 1)
  /\ 6 * Sigma n (fun i => idx i * idx i) == (idx n - 1) * idx n * (2 * idx n - 1).
Proof.
  induction n as [|n [IH1 IH2]].
  - split; reflexivity.
  - rewrite <- !Sigma_Q_succ, !idx_succ. split.
    + rewrite Qmult_plus_distr_r, IH1. ring.
    + rewrite Qmult_plus_distr_r, IH2. ring.
Qed.

Lemma sse_expand (yf : nat -> Q) (a b : Q) (n : nat) :
  Sigma n (fun i => (yf i - (a * idx i + b)) * (yf i - (a * idx i + b)))
  == Sigma n (fun i => yf i * yf i)
     - 2 * a * Sigma n (fun i => idx i * yf i)
     - 2 * b * Sigma n yf
     + a * a * Sigma n (fun i => idx i * idx i)
     + 2 * a * b * Sigma n idx
     + idx n * (b * b).
Proof.
  induction n as [|n IH].
  - unfold Sigma; simpl. unfold idx; simpl. ring.
  - rewrite <- !Sigma_Q_succ, idx_succ, IH. ring.
Qed.

Lemma idx_ge_2 (n : nat) : (2 <= n)%nat -> 2 <= idx n.
Proof.
  intro H. unfold idx. change 2 with (inject_Z 2).
  rewrite <- Zle_Qle. lia.
Qed.

Lemma denominator_positive (n : nat) :
  (2 <= n)%nat ->
  0 < idx n * Sigma n (fun i => idx i * idx i) - Sigma n idx * Sigma n idx.
Proof.
  intro Hn. destruct (sum_indices n) as [H1 H2].
  pose proof (@idx_ge_2 n Hn) as Hge.
  set (N := idx n) in *.
  set (Sx := Sigma n idx) in *.
  set (Sxx := Sigma n (fun i => idx i * idx i)) in *.
  assert (HSx : Sx == N * (N - 1) / 2) by (rewrite <- H1; field).
  assert (HSxx : Sxx == (N - 1) * N * (2 * N - 1) / 6) by (rewrite <- H2; field).
  rewrite HSx, HSxx.
  assert (Hd : N * ((N - 1) * N * (2 * N - 1) / 6) - N * (N - 1) / 2 * (N * (N - 1) / 2)
               == N * N * (N - 1) * (N + 1) / 12) by field.
  rewrite Hd. nra.
Qed.

Lemma ols_minimises_squared_error (ys : list Q) (a b : Q) :
  (2 <= List.length ys)%nat ->
  squared_error ys (ols_slope ys) (ols_intercept ys) <= squared_error ys a b.
Proof.
  intro Hn.
  pose proof (@denominator_positive _ Hn) as HD.
  pose proof (@idx_ge_2 _ Hn) as HN.
  unfold squared_error.
  change (@of_index Q Q_arith) with idx.
  change (@mul Q Q_arith) with Qmult.
  change (@add Q Q_arith) with Qplus.
  change (@sub Q Q_arith) with Qminus.
  change (@undefined_num Q Q_arith) with 0.
  rewrite !(sse_expand (fun i => nth i ys 0)).
  unfold ols_intercept, ols_slope.
  change (@of_index Q Q_arith) with idx.
  change (@mul Q Q_arith) with Qmult.
  change (@add Q Q_arith) with Qplus.
  change (@sub Q Q_arith) with Qminus.
  change (@div Q Q_arith) with Qdiv.
  change (@undefined_num Q Q_arith) with 0.
  set (n := List.length ys) in *.
  set (N := idx n) in *.
  set (Sx := Sigma n idx) in *.
  set (Sxx := Sigma n (fun i => idx i * idx i)) in *.
  set (Sy := Sigma n (fun i => nth i ys 0)).
  set (Sxy := Sigma n (fun i => idx i * nth i ys 0)).
  set (Syy := Sigma n (fun i => nth i ys 0 * nth i ys 0)).
  set (D := N * Sxx - Sx * Sx) in *.
  set (slope := (N * Sxy - Sx * Sy) / D).
  set (intercept := (Sy - slope * Sx) / N).
  apply Qle_minus_iff.
  assert (HNpos : 0 < N) by lra.
  assert (Hid :
    Syy - 2 * a * Sxy - 2 * b * Sy + a * a * Sxx + 2 * a * b * Sx + N * (b * b)
    + - (Syy - 2 * slope * Sxy - 2 * intercept * Sy + slope * slope * Sxx
         + 2 * slope * intercept * Sx + N * (intercept * intercept))
    == ((N * (b - intercept) + (a - slope) * Sx) * (N * (b - intercept) + (a - slope) * Sx)
        + (a - slope) * (a - slope) * D) / N).
  { unfold intercept, slope. unfold D. field. split; intro H0.
    - unfold D in HD. rewrite H0 in HD. exact (Qlt_irrefl 0 HD).
    - rewrite H0 in HNpos. exact (Qlt_irrefl 0 HNpos). }
  rewrite Hid.
  apply Qle_shift_div_l; [exact HNpos|].
  rewrite Qmult_0_l.
  set (v := a - slope).
  set (u := N * (b - intercept) + v * Sx).
  clearbody u v D. clear - HD. nra.
Qed.
End LeastSquares.

(** C1.  On two or more points [calculateTrendline] returns as many points
    as it is given; the i-th keeps the input's [x] and has
    [y = slope * i + intercept], slope and intercept being the least-squares
    values over the indices [0 .. n-1]: they are given by the specified
    formula and, in exact arithmetic, no line has a smaller sum of squared
    residuals.  On doubles the y-values 1, 2, 3, 4 give slope 1 and
    intercept 1, and the output y-values are the input ones. *)
Theorem calculateTrendline_least_squares :
  (forall (num : Type) (A : Arith num) (data : list (DataPoint.t num)),
      2 <= List.length data ->
      let ys := List.map (fun point => DataPoint.y point) data in
      List.length (calculateTrendline data) = List.length data /\
      forall (i : nat) (point : DataPoint.t num),
        nth_error data i = Some point ->
        nth_error (calculateTrendline data) i =
        Some (DataPoint.mk (DataPoint.x point)
                (add (mul (ols_slope ys) (of_index i)) (ols_intercept ys))))
  /\ (forall (ys : list Q) (a b : Q),
        2 <= List.length ys ->
        (squared_error ys (ols_slope ys) (ols_intercept ys) <= squared_error ys a b)%Q)
  /\ ols_slope [1; 2; 3; 4]%float = 1%float
  /\ ols_intercept [1; 2; 3; 4]%float = 1%float
  /\ (forall data : list (DataPoint.t float),
        List.map (fun point => DataPoint.y point) data = [1; 2; 3; 4]%float ->
        List.map (fun point => DataPoint.y point) (calculateTrendline data)
        = [1; 2; 3; 4]%float).
Proof.
  split; [|split; [|split; [|split]]].
  - intros num A data Hlen ys.
    rewrite (calculateTrendline_formula data Hlen). fold ys.
    unfold Array.mapi. split.
    + apply map_from_length.
    + intros i point Hi. rewrite map_from_nth_error, Hi. reflexivity.
  - intros ys a b Hlen. now apply ols_minimises_squared_error.
  - vm_compute. reflexivity.
  - vm_compute. reflexivity.
  - intros data Hys.
    destruct data as [|[x0 y0] [|[x1 y1] [|[x2 y2] [|[x3 y3] [|? ?]]]]]; try discriminate.
    simpl in Hys. injection Hys as -> -> -> ->.
    vm_compute. reflexivity.
Qed.

Lemma calculateTrendline_least_squares_witness :
  List.length (calculateTrendline exact_fit_series) = 4
  /\ nth_error (calculateTrendline exact_fit_series) 2
     = Some (DataPoint.mk (XNumber 2%float) 3%float).
Proof.
  destruct (proj1 calculateTrendline_least_squares float float_arith exact_fit_series)
    as [Hlen Hnth].
  - simpl. lia.
  - split.
    + exact Hlen.
    + rewrite (Hnth 2 (DataPoint.mk (XNumber 2%float) 3%float) eq_refl).
      vm_compute. reflexivity.
Defined.

(** ** Visibility: membership and toggling *)

Lemma includes_In (arr : list string) (s : string) :
  Array.includes arr s = true <-> In s arr.
Proof.
  unfold Array.includes. rewrite existsb_exists. split.
  - intros [v [Hin Heq]]. apply String.eqb_eq in Heq. now subst.
  - intro Hin. exists s. split; [assumption | apply String.eqb_refl].
Qed.

Lemma includes_false (arr : list string) (s : string) :
  Array.includes arr s = false <-> ~ In s arr.
Proof.
  rewrite <- includes_In. destruct (Array.includes arr s); split; intro H;
    try reflexivity; try discriminate; try (intro; discriminate).
  now elim H.
Qed.

Section Toggle.
Context {lib : ChartLibrary} {rt : Runtime}.

(** The list update of [handleSeriesToggle]. *)
Lemma visibleSeries_toggle (seriesId : string) (st : State) :
  visibleSeries (handleSeriesToggle seriesId st) =
  if Array.includes (visibleSeries st) seriesId
  then List.filter (fun id => negb (String.eqb id seriesId)) (visibleSeries st)
  else visibleSeries st ++ [seriesId].
Proof. reflexivity. Qed.

Lemma toggle_membership (seriesId id : string) (st : State) :
  In id (visibleSeries (handleSeriesToggle seriesId st)) <->
  (if String.eqb id seriesId
   then ~ In seriesId (visibleSeries st)
   else In id (visibleSeries st)).
Proof.
  rewrite visibleSeries_toggle.
  destruct (Array.includes (visibleSeries st) seriesId) eqn:Hinc.
  - apply includes_In in Hinc. rewrite filter_In.
    destruct (String.eqb_spec id seriesId) as [->|Hne]; simpl.
    + split; [intros [_ H]; discriminate | intro H; now elim H].
    + split; [now intros [H _] | now split].
  - apply includes_false in Hinc. rewrite in_app_iff. simpl.
    destruct (String.eqb_spec id seriesId) as [->|Hne].
    + split; [now intros _ | auto].
    + split; [intros [H|[H|[]]]; [assumption | now elim Hne] | auto].
Qed.

Lemma toggle_NoDup (seriesId : string) (st : State) :
  NoDup (visibleSeries st) -> NoDup (visibleSeries (handleSeriesToggle seriesId st)).
Proof.
  intro Hnd. rewrite visibleSeries_toggle.
  destruct (Array.includes (visibleSeries st) seriesId) eqn:Hinc.
  - now apply NoDup_filter.
  - apply includes_false in Hinc.
    apply NoDup_app; [assumption | repeat constructor; auto | ].
    intros a Ha [<-|[]]. now apply Hinc.
Qed.

(** Every event keeps the visible list free of duplicates when the
    series ids are unique. *)
Lemma dispatch_NoDup (props : Props.t) (st st' : State) (ev : Event) (trace : list Effect) :
  NoDup (List.map DataSeries.id (Props.series props)) ->
  NoDup (visibleSeries st) ->
  dispatch props st ev = Some (st', trace) ->
  NoDup (visibleSeries st').
Proof.
  intros Hids Hnd Hstep.
  assert (Hinit : NoDup (visibleSeries (initVisibleSeries props st))).
  { unfold initVisibleSeries.
    destruct (0 <? List.length (Props.series props)); [|assumption]. simpl.
    clear - Hids. induction (Props.series props) as [|s rest IH]; simpl.
    - constructor.
    - inversion Hids as [|? ? Hnotin Hrest]; subst.
      destruct (negb (bool_or (DataSeries.hidden s) false)); simpl; [|auto].
      constructor; [|auto].
      intro Hin. apply Hnotin. apply in_map_iff in Hin.
      destruct Hin as [s' [Heq Hin]]. apply filter_In in Hin.
      apply in_map_iff. exists s'. tauto. }
  destruct ev; simpl in Hstep;
    try (injection Hstep as <- _; exact Hinit);
    destruct (negb (is_ChartView props));
    try (injection Hstep as <- _; exact Hnd).
  - destruct chart; injection Hstep as <- _; exact Hnd.
  - destruct (Props.allowChartTypeSwitch props); injection Hstep as <- _; exact Hnd.
  - destruct (Props.enableZoom props); [unfold handleZoomIn in Hstep;
      destruct (chartInstance st)|]; injection Hstep as <- _; exact Hnd.
  - destruct (Props.enableZoom props); [unfold handleZoomOut in Hstep;
      destruct (chartInstance st)|]; injection Hstep as <- _; exact Hnd.
  - destruct (Props.enableZoom props && isZoomed st)%bool; [unfold handleResetZoom in Hstep;
      destruct (chartInstance st)|]; injection Hstep as <- _; exact Hnd.
  - destruct (Props.enableZoom props); injection Hstep as <- _; exact Hnd.
  - destruct (Props.enableZoom props); injection Hstep as <- _; exact Hnd.
  - destruct (Props.enableExport props); injection Hstep as <- _; exact Hnd.
  - destruct (Props.enableExport props); [|injection Hstep as <- _; exact Hnd].
    destruct (handleExportCSV props today st); simpl in Hstep; [|discriminate].
    injection Hstep as <- _; exact Hnd.
  - destruct (Props.enableTrendline props); injection Hstep as <- _; exact Hnd.
  - destruct (showSettings st && _)%bool; injection Hstep as <- _;
      [now apply toggle_NoDup | exact Hnd].
Qed.

Lemma run_NoDup (props : Props.t) (events : list Event) (st st' : State) (trace : list Effect) :
  NoDup (List.map DataSeries.id (Props.series props)) ->
  NoDup (visibleSeries st) ->
  run props st events = Some (st', trace) ->
  NoDup (visibleSeries st').
Proof.
  intro Hids. revert st trace.
  induction events as [|ev rest IH]; intros st trace Hnd Hrun; simpl in Hrun.
  - injection Hrun as <- _. exact Hnd.
  - destruct (dispatch props st ev) as [[st1 trace1]|] eqn:Hstep; simpl in Hrun; [|discriminate].
    destruct (run props st1 rest) as [[st2 trace2]|] eqn:Hrest; simpl in Hrun; [|discriminate].
    injection Hrun as <- _.
    eapply IH; [|exact Hrest].
    eapply dispatch_NoDup; eauto.
Qed.
End Toggle.

(** ** Runs of events: what every reachable state and trace satisfies *)

Section RunInvariant.
Context {lib : ChartLibrary} {rt : Runtime}.
Variable props : Props.t.
Variable P : State -> Prop.
Variable Q : Effect -> Prop.
Hypothesis step_ok :
  forall (st st' : State) (ev : Event) (trace : list Effect),
    P st -> dispatch props st ev = Some (st', trace) -> P st' /\ Forall Q trace.

Lemma run_invariant (events : list Event) (st st' : State) (trace : list Effect) :
  P st -> run props st events = Some (st', trace) -> P st' /\ Forall Q trace.
Proof.
  revert st trace; induction events as [|ev rest IH]; intros st trace HP Hrun;
    simpl in Hrun.
  - injection Hrun as <- <-. split; [exact HP | constructor].
  - destruct (dispatch props st ev) as [[st1 trace1]|] eqn:Hstep; simpl in Hrun;
      [|discriminate].
    destruct (run props st1 rest) as [[st2 trace2]|] eqn:Hrest; simpl in Hrun;
      [|discriminate].
    injection Hrun as <- <-.
    destruct (step_ok _ HP Hstep) as [HP1 HQ1].
    destruct (IH _ _ HP1 Hrest) as [HP2 HQ2].
    split; [exact HP2 | apply Forall_app; now split].
Qed.
End RunInvariant.

Section ExportTrace.
Context {lib : ChartLibrary} {rt : Runtime}.

(** What [handleExportCSV] does when it returns. *)
Lemma handleExportCSV_trace (props : Props.t) (today : string) (st : State)
      (trace : list Effect) :
  handleExportCSV props today st = Some trace ->
  (Props.series props = [] /\ trace = [])
  \/ (exists csv : string,
        Props.series props <> []
        /\ csvText (Props.series props) = Some csv
        /\ trace =
           [NewBlob csv "text/csv;charset=utf-8;";
            Download (string_or (Props.title props) "chart-data"
                      ++ "-" ++ today ++ ".csv")%string]
           ++ (if Props.onExport props then [CallOnExport Kind_csv csv] else [])).
Proof.
  unfold handleExportCSV. intro H.
  destruct (Props.series props) as [|s rest] eqn:Hs; simpl in H.
  - injection H as <-. now left.
  - destruct (csvText (s :: rest)) as [csv|]; simpl in H; [|discriminate].
    injection H as <-. right. exists csv. repeat split. discriminate.
Qed.
End ExportTrace.

(** The cases of one event: each goal has the state and the trace that
    the event produces; [Hcsv] is the outcome of the CSV export. *)
Ltac dispatch_cases H :=
  unfold dispatch, handleZoomIn, handleZoomOut, handleResetZoom, onPanComplete,
    onZoomComplete, handleExportPNG, onChartRef, initVisibleSeries in H;
  repeat match type of H with
    | context [match ?ev with SeriesEffect => _ | _ => _ end] => is_var ev; destruct ev
    | context [if ?c then _ else _] => destruct c eqn:?
    | context [match ?o with Some _ => _ | None => _ end] => destruct o eqn:?
    | bind ?c _ = _ => let Hcsv := fresh "Hcsv" in destruct c eqn:Hcsv; simpl in H
    end;
  try discriminate H;
  injection H as <- <-;
  try match goal with
      | Hcsv : handleExportCSV _ _ _ = Some _ |- _ =>
          destruct (handleExportCSV_trace _ _ _ Hcsv) as [[_ ->]|[? [_ [_ ->]]]]
      end.

Ltac split_ifs :=
  repeat match goal with
         | |- context [if ?c then _ else _] => destruct c eqn:?
         end.

Section Callbacks.
Context {lib : ChartLibrary} {rt : Runtime}.

Lemma dispatch_supplied (props : Props.t) (st st' : State) (ev : Event)
      (trace : list Effect) :
  True -> dispatch props st ev = Some (st', trace) ->
  True /\ Forall (supplied props) trace.
Proof.
  intros _ H. split; [exact I|].
  dispatch_cases H; split_ifs; repeat constructor; simpl; auto.
Qed.
End Callbacks.

(** C10.  Toggling the same id twice gives back the membership of the
    visible list, and the visible list holds no id twice: a toggle never
    introduces a duplicate, and with unique series ids no run of events
    from the initial state reaches a list with one. *)
Theorem toggle_twice_same_membership_no_duplicates :
  forall (lib : ChartLibrary) (rt : Runtime),
    (forall (st : State) (seriesId id : string),
        In id (visibleSeries (handleSeriesToggle seriesId (handleSeriesToggle seriesId st)))
        <-> In id (visibleSeries st))
    /\ (forall (st : State) (seriesId : string),
          NoDup (visibleSeries st) ->
          NoDup (visibleSeries (handleSeriesToggle seriesId st)))
    /\ (forall (props : Props.t) (events : list Event) (st : State) (trace : list Effect),
          NoDup (List.map DataSeries.id (Props.series props)) ->
          run props (initialState props) events = Some (st, trace) ->
          NoDup (visibleSeries st)).
Proof.
  intros lib rt. split; [|split].
  - intros st seriesId id. rewrite toggle_membership.
    destruct (String.eqb_spec id seriesId) as [->|Hne].
    + rewrite toggle_membership, String.eqb_refl.
      destruct (in_dec string_dec seriesId (visibleSeries st)); tauto.
    + rewrite toggle_membership.
      destruct (String.eqb_spec id seriesId); [contradiction | reflexivity].
  - intros st seriesId. apply toggle_NoDup.
  - intros props events st trace Hids Hrun.
    eapply run_NoDup; [exact Hids | | exact Hrun]. constructor.
Qed.

Lemma toggle_twice_same_membership_no_duplicates_witness :
  NoDup (visibleSeries
           (handleSeriesToggle "B"%string
              (Sample.state_of ["A"; "B"]%string false false None)))
  /\ NoDup (visibleSeries
              (mkState (lib := Reference.chart) line false true ["B"; "A"]%string
                       None (TimeRange.mk None None) false)).
Proof.
  destruct (@toggle_twice_same_membership_no_duplicates Reference.chart Reference.runtime)
    as [_ [Hkeep Hrun]].
  split.
  - apply Hkeep. simpl. repeat constructor; simpl; intuition discriminate.
  - apply (Hrun (Sample.props_of [Sample.seriesA; Sample.seriesB])
                [SeriesEffect; ClickSettings;
                 ClickSeriesChip "A"%string; ClickSeriesChip "A"%string]
                _ []).
    + simpl. repeat constructor; simpl; intuition discriminate.
    + vm_compute. reflexivity.
Defined.

(** C6.  A toggle reaches [handleSeriesToggle] through the chip of a
    supplied series only (lines 939-953).  For an id that no supplied
    series carries there is no chip: nothing runs, nothing is thrown and
    the state stays as it is.  For the id of a supplied series, with the
    chips shown, the toggle does not throw and flips the membership of
    that id in the visible list, leaving every other id and every other
    state cell as they were.  The handler flips the membership of its id
    whenever it runs. *)
Theorem toggle_unknown_is_noop_known_flips :
  forall (lib : ChartLibrary) (rt : Runtime) (props : Props.t) (st : State)
         (seriesId : string),
    ((forall s, In s (Props.series props) -> DataSeries.id s <> seriesId) ->
     dispatch props st (ClickSeriesChip seriesId) = Some (st, []))
    /\ ((exists s, In s (Props.series props) /\ DataSeries.id s = seriesId) ->
        is_ChartView props = true ->
        showSettings st = true ->
        exists st' : State,
          dispatch props st (ClickSeriesChip seriesId) = Some (st', [])
          /\ (In seriesId (visibleSeries st') <-> ~ In seriesId (visibleSeries st))
          /\ (forall id, id <> seriesId ->
                         (In id (visibleSeries st') <-> In id (visibleSeries st)))
          /\ st' = setVisibleSeries (fun _ => visibleSeries st') st)
    /\ (In seriesId (visibleSeries (handleSeriesToggle seriesId st))
        <-> ~ In seriesId (visibleSeries st)).
Proof.
  intros lib rt props st seriesId. split; [|split].
  - intro Hunknown. unfold dispatch.
    destruct (negb (is_ChartView props)); [reflexivity|].
    assert (Hnone : existsb (fun s => String.eqb (DataSeries.id s) seriesId)
                            (Props.series props) = false).
    { apply not_true_is_false. intro Hsome. apply existsb_exists in Hsome.
      destruct Hsome as [s [Hs Heq]]. apply String.eqb_eq in Heq.
      exact (Hunknown s Hs Heq). }
    rewrite Hnone, andb_false_r. reflexivity.
  - intros [s [Hs Hid]] Hview Hshown.
    exists (handleSeriesToggle seriesId st). split; [|split; [|split]].
    + unfold dispatch. rewrite Hview, Hshown. cbn [negb andb].
      assert (Hsome : existsb (fun s => String.eqb (DataSeries.id s) seriesId)
                              (Props.series props) = true).
      { apply existsb_exists. exists s. split; [exact Hs | now apply String.eqb_eq]. }
      now rewrite Hsome.
    + rewrite toggle_membership, String.eqb_refl. reflexivity.
    + intros id Hne. rewrite toggle_membership.
      destruct (String.eqb_spec id seriesId); [contradiction | reflexivity].
    + reflexivity.
  - rewrite toggle_membership, String.eqb_refl. reflexivity.
Qed.

Lemma toggle_unknown_is_noop_known_flips_witness :
  let props := Sample.props_of [Sample.seriesA; Sample.seriesB] in
  let st := mkState (lib := Reference.chart) line false true ["A"]%string None
                    (TimeRange.mk None None) false in
  dispatch (rt := Reference.runtime) props st (ClickSeriesChip "ghost")
  = Some (st, [])
  /\ exists st' : State,
       dispatch (rt := Reference.runtime) props st (ClickSeriesChip "B") = Some (st', [])
       /\ (In "B"%string (visibleSeries st') <-> ~ In "B"%string (visibleSeries st))
       /\ (forall id, id <> "B"%string ->
                      (In id (visibleSeries st') <-> In id (visibleSeries st)))
       /\ st' = setVisibleSeries (fun _ => visibleSeries st') st.
Proof.
  intros props st.
  destruct (@toggle_unknown_is_noop_known_flips Reference.chart Reference.runtime
              props st "ghost"%string) as [Hunknown _].
  destruct (@toggle_unknown_is_noop_known_flips Reference.chart Reference.runtime
              props st "B"%string) as [_ [Hknown _]].
  split.
  - apply Hunknown. simpl. intros s [<-|[<-|[]]]; simpl; discriminate.
  - apply Hknown; [|reflexivity|reflexivity].
    exists Sample.seriesB. split; [simpl; tauto | reflexivity].
Defined.

(** The run of the chips: the chip of B shows it, a click on no chip (an
    id that no series carries) changes nothing. *)
Example chip_run :
  let props := Sample.props_of [Sample.seriesA; Sample.seriesB] in
  option_map (fun r => visibleSeries (fst r))
    (run (lib := Reference.chart) (rt := Reference.runtime) props (initialState props)
         [SeriesEffect; ClickSettings; ClickSeriesChip "B"%string;
          ClickSeriesChip "ghost"%string])
  = Some ["A"]%string.
Proof. vm_compute. reflexivity. Qed.

(** ** Render model *)

Section RenderModel.
Context {lib : ChartLibrary}.

Lemma datasets_chartData (theme : Theme.t) (props : Props.t) (st : State) :
  datasets (chartData theme props st) =
  List.map (primaryDataset theme (chartType st))
    (List.filter (visible_in st) (Props.series props))
  ++ (if showTrendline st
      then List.map (trendDataset theme)
             (List.filter (visible_in st) (Props.series props))
      else []).
Proof. reflexivity. Qed.

(** The points of a primary dataset are the points of its series. *)
Lemma primaryDataset_data (theme : Theme.t) (kind : ChartType) (s : DataSeries.t) :
  Dataset.data (primaryDataset theme kind s) = DataSeries.data s.
Proof.
  simpl. induction (DataSeries.data s) as [|[x y] rest IH]; simpl;
    [reflexivity | now rewrite IH].
Qed.

Lemma trendDataset_in (theme : Theme.t) (props : Props.t) (st : State) (s : DataSeries.t) :
  In s (Props.series props) ->
  visible_in st s = true ->
  showTrendline st = true ->
  In (trendDataset theme s) (datasets (chartData theme props st)).
Proof.
  intros Hin Hvis Htrend. rewrite datasets_chartData, Htrend.
  apply in_or_app. right. apply in_map. apply filter_In. now split.
Qed.

Lemma primaryDataset_in (theme : Theme.t) (props : Props.t) (st : State) (s : DataSeries.t) :
  In s (Props.series props) ->
  visible_in st s = true ->
  In (primaryDataset theme (chartType st) s) (datasets (chartData theme props st)).
Proof.
  intros Hin Hvis. rewrite datasets_chartData.
  apply in_or_app. left. apply in_map. apply filter_In. now split.
Qed.
End RenderModel.

(** C5.  Every dataset of the render model, primary or trend, is built
    from a supplied series whose id is in the visible list; and the series
    outside the visible list have no influence on the render model. *)
Theorem chartData_only_visible_series :
  forall (lib : ChartLibrary) (theme : Theme.t) (st : State),
    (forall (props : Props.t) (d : Dataset.t),
        In d (datasets (chartData theme props st)) ->
        exists s : DataSeries.t,
          In s (Props.series props)
          /\ In (DataSeries.id s) (visibleSeries st)
          /\ (d = primaryDataset theme (chartType st) s
              \/ (showTrendline st = true /\ d = trendDataset theme s)))
    /\ (forall props props' : Props.t,
          List.filter (fun s => Array.includes (visibleSeries st) (DataSeries.id s))
                      (Props.series props)
          = List.filter (fun s => Array.includes (visibleSeries st) (DataSeries.id s))
                        (Props.series props') ->
          chartData theme props st = chartData theme props' st).
Proof.
  intros lib theme st. split.
  - intros props d Hd. rewrite datasets_chartData in Hd.
    apply in_app_or in Hd. destruct Hd as [Hd|Hd].
    + apply in_map_iff in Hd. destruct Hd as [s [<- Hs]].
      apply filter_In in Hs. destruct Hs as [Hs Hvis].
      exists s. repeat split; [assumption | now apply includes_In | now left].
    + destruct (showTrendline st) eqn:Htrend; [|contradiction].
      apply in_map_iff in Hd. destruct Hd as [s [<- Hs]].
      apply filter_In in Hs. destruct Hs as [Hs Hvis].
      exists s. repeat split; [assumption | now apply includes_In | right; now split].
  - intros props props' Hsame. unfold chartData. now rewrite Hsame.
Qed.

Lemma chartData_only_visible_series_witness :
  exists s : DataSeries.t,
    In s [Sample.seriesA; Sample.seriesB]
    /\ In (DataSeries.id s) ["A"]%string
    /\ (trendDataset Sample.theme Sample.seriesA = primaryDataset Sample.theme line s
        \/ (true = true
            /\ trendDataset Sample.theme Sample.seriesA = trendDataset Sample.theme s)).
Proof.
  apply (proj1 (@chartData_only_visible_series Reference.chart Sample.theme
                  (Sample.state_of ["A"]%string true false None))
               (Sample.props_of [Sample.seriesA; Sample.seriesB])
               (trendDataset Sample.theme Sample.seriesA)).
  simpl. right. left. reflexivity.
Defined.

(** The scenario of the specification: of three series, the third is
    toggled off and the trend line is enabled; the render model then holds
    four datasets, the primary ones first. *)
Example scenario_four_datasets :
  let props := Sample.props_of [Sample.waterLevel; Sample.rainfall; Sample.temperature] in
  option_map
    (fun '(st, _) =>
       List.map Dataset.label
         (datasets (chartData (lib := Reference.chart) Sample.theme props st)))
    (run (lib := Reference.chart) (rt := Reference.runtime) props (initialState props)
         [SeriesEffect; ClickSettings; ClickSeriesChip "temperature"; ClickTrend])
  = Some ["Water Level"; "Rainfall"; "Water Level (Trend)"; "Rainfall (Trend)"]%string.
Proof. vm_compute. reflexivity. Qed.

(** C3, as the code has it.  On fewer than two points [calculateTrendline]
    returns the empty list; with the trend line enabled the render model
    still holds the trend dataset of such a visible series, labelled
    "<label> (Trend)", with no points. *)
Theorem short_series_trend_dataset_is_empty :
  forall (lib : ChartLibrary) (theme : Theme.t) (props : Props.t) (st : State)
         (s : DataSeries.t),
    List.length (DataSeries.data s) < 2 ->
    calculateTrendline (DataSeries.data s) = []
    /\ Dataset.data (trendDataset theme s) = []
    /\ Dataset.label (trendDataset theme s) = (DataSeries.label s ++ " (Trend)")%string
    /\ (In s (Props.series props) ->
        Array.includes (visibleSeries st) (DataSeries.id s) = true ->
        showTrendline st = true ->
        In (trendDataset theme s) (datasets (chartData theme props st))).
Proof.
  intros lib theme props st s Hshort.
  split; [|split; [|split]].
  - now apply calculateTrendline_short.
  - simpl. now apply calculateTrendline_short.
  - reflexivity.
  - apply trendDataset_in.
Qed.

Lemma short_series_trend_dataset_is_empty_witness :
  calculateTrendline (DataSeries.data Sample.single) = []
  /\ In (trendDataset Sample.theme Sample.single)
        (datasets (chartData Sample.theme (Sample.props_of [Sample.single])
                     (Sample.state_of ["level"]%string true false None))).
Proof.
  destruct (@short_series_trend_dataset_is_empty Reference.chart Sample.theme
              (Sample.props_of [Sample.single])
              (Sample.state_of ["level"]%string true false None)
              Sample.single) as [Hempty [_ [_ Hin]]].
  - simpl. lia.
  - split; [exact Hempty|].
    apply Hin; [simpl; now left | reflexivity | reflexivity].
Defined.

(** C3 as stated fails: for a visible series of one point, with the
    trend line enabled, the render model holds a trend dataset of that
    series, present with an empty list of points. *)
Lemma single_point_trend_dataset_present :
  let props := Sample.props_of [Sample.single] in
  let st := Sample.state_of ["level"]%string true false None in
  List.length (DataSeries.data Sample.single) = 1
  /\ List.map (fun d => (Dataset.label d, Dataset.data d))
       (datasets (chartData Sample.theme props st))
     = [ ("Level"%string, [Sample.point 1 10]);
         ("Level (Trend)"%string, []) ].
Proof.
  split; reflexivity.
Qed.

(** C7, as the code has it.  Building the render model is total, and the
    dataset of a visible series holds every point of the series, in order
    and unchanged: a point with a non-finite [y] is kept with that [y],
    neither dropped nor turned into zero. *)
Theorem primaryDataset_keeps_every_point :
  forall (lib : ChartLibrary) (theme : Theme.t) (props : Props.t) (st : State)
         (s : DataSeries.t),
    Dataset.data (primaryDataset theme (chartType st) s) = DataSeries.data s
    /\ (In s (Props.series props) ->
        Array.includes (visibleSeries st) (DataSeries.id s) = true ->
        In (primaryDataset theme (chartType st) s)
           (datasets (chartData theme props st))).
Proof.
  intros lib theme props st s. split.
  - apply primaryDataset_data.
  - apply primaryDataset_in.
Qed.

Lemma primaryDataset_keeps_every_point_witness :
  In (primaryDataset Sample.theme line Sample.gapped)
     (datasets (chartData Sample.theme (Sample.props_of [Sample.gapped])
                  (Sample.state_of ["level"]%string false false None))).
Proof.
  apply (proj2 (@primaryDataset_keeps_every_point Reference.chart Sample.theme
                  (Sample.props_of [Sample.gapped])
                  (Sample.state_of ["level"]%string false false None)
                  Sample.gapped)).
  - simpl. now left.
  - reflexivity.
Defined.

(** C7 as stated fails: the dataset of a series with one NaN among valid
    points holds all three points, the NaN one among them. *)
Lemma nan_point_is_not_omitted :
  let props := Sample.props_of [Sample.gapped] in
  let st := Sample.state_of ["level"]%string false false None in
  List.map (fun d => Dataset.data d) (datasets (chartData Sample.theme props st))
  = [[Sample.point 1 1; Sample.point 2 nan; Sample.point 3 3]]
  /\ PrimFloat.is_nan (DataPoint.y (Sample.point 2 nan)) = true.
Proof.
  split; reflexivity.
Qed.

(** ** Zoom *)




(** A run: zoom in, reset, reset again.  The second reset finds the
    control disabled and adds nothing to the trace. *)
Example reset_zoom_twice :
  let props := Sample.props_of [Sample.seriesA] in
  option_map snd
    (run (lib := Reference.chart) (rt := Reference.runtime) props (initialState props)
         [SeriesEffect; ChartRef (Some Sample.canvas);
          ClickZoomIn; ClickResetZoom; ClickResetZoom])
  = Some [ChartCall Sample.canvas
                    (zoom 0x1.199999999999ap+0%float);
          ChartCall Sample.canvas resetZoom;
          CallOnRangeChange (TimeRange.mk None None)].
Proof. vm_compute. reflexivity. Qed.

(** ** CSV export *)

Section Sorting.
Lemma sort_insert_perm (v : string) (sorted : list string) :
  Permutation (sort_insert v sorted) (v :: sorted).
Proof.
  induction sorted as [|w rest IH]; simpl; [reflexivity|].
  destruct (String.leb v w); [reflexivity|].
  rewrite IH. apply perm_swap.
Qed.

Lemma Array_sort_perm (arr : list string) : Permutation (Array_sort arr) arr.
Proof.
  induction arr as [|v rest IH]; simpl; [reflexivity|].
  rewrite sort_insert_perm. now constructor.
Qed.

Lemma sort_insert_sorted (v : string) (sorted : list string) :
  Sorted string_le sorted -> Sorted string_le (sort_insert v sorted).
Proof.
  induction sorted as [|w rest IH]; intro Hs; simpl.
  - repeat constructor.
  - destruct (String.leb v w) eqn:Hvw.
    + constructor; [assumption | now constructor].
    + inversion Hs as [|? ? Hrest Hhd]; subst.
      assert (Hwv : string_le w v).
      { destruct (String.leb_total v w) as [H|H]; [congruence | exact H]. }
      constructor; [now apply IH|].
      destruct rest as [|u rest']; simpl.
      * now constructor.
      * destruct (String.leb v u); constructor; [assumption|].
        now inversion Hhd.
Qed.

Lemma Array_sort_sorted (arr : list string) : Sorted string_le (Array_sort arr).
Proof.
  induction arr as [|v rest IH]; simpl; [constructor | now apply sort_insert_sorted].
Qed.

Lemma le_neq_lt (a b : string) : string_le a b -> a <> b -> string_lt a b.
Proof.
  unfold string_le, string_lt, String.leb, String.ltb. intros Hle Hne.
  destruct (String.compare a b) eqn:Hc; try reflexivity; try discriminate.
  elim Hne. now apply String.compare_eq_iff.
Qed.

Lemma sorted_NoDup_strict (l : list string) :
  Sorted string_le l -> NoDup l -> Sorted string_lt l.
Proof.
  induction l as [|a rest IH]; intros Hs Hnd; [constructor|].
  inversion Hs as [|? ? Hrest Hhd]; subst.
  inversion Hnd as [|? ? Hnotin Hnd']; subst.
  constructor; [now apply IH|].
  destruct rest as [|b rest']; constructor.
  inversion Hhd; subst. apply le_neq_lt; [assumption|].
  intros ->. apply Hnotin. now left.
Qed.
End Sorting.

Section CsvExport.
Context {rt : Runtime}.

Lemma Set_add_In (set : list string) (v k : string) :
  In k (Set_add set v) <-> In k set \/ k = v.
Proof.
  unfold Set_add. destruct (Array.includes set v) eqn:Hinc.
  - apply includes_In in Hinc. split; [auto | intros [H| ->]; assumption].
  - rewrite in_app_iff. simpl. intuition.
Qed.

Lemma Set_add_NoDup (set : list string) (v : string) :
  NoDup set -> NoDup (Set_add set v).
Proof.
  intro Hnd. unfold Set_add. destruct (Array.includes set v) eqn:Hinc; [assumption|].
  apply includes_false in Hinc.
  apply NoDup_app; [assumption | repeat constructor; auto | ].
  intros a Ha [<-|[]]. now apply Hinc.
Qed.

(** A loop that pushes one value per element. *)
Lemma forEach_push (X C Y : Type) (f : X -> option C) (g : C -> Y)
      (arr : list X) (acc res : list Y) :
  forEach (fun elt out => bind (f elt) (fun c => Some (out ++ [g c]))) arr acc = Some res ->
  exists cs : list C,
    Forall2 (fun elt c => f elt = Some c) arr cs /\ res = acc ++ List.map g cs.
Proof.
  revert acc res; induction arr as [|elt rest IH]; intros acc res H; simpl in H.
  - injection H as <-. exists []. split; [constructor | now rewrite app_nil_r].
  - destruct (f elt) as [c|] eqn:Hf; simpl in H; [|discriminate].
    apply IH in H. destruct H as [cs [Hcs ->]].
    exists (c :: cs). split; [now constructor|].
    now rewrite <- app_assoc.
Qed.

(** The inner loop of lines 384-389 over the points of one series. *)
Lemma collect_points (points : list (DataPoint.t float)) (set res : list string) :
  forEach (fun point set => bind (xText (DataPoint.x point))
                                 (fun xValue => Some (Set_add set xValue)))
          points set = Some res ->
  (NoDup set -> NoDup res)
  /\ (forall k, In k res <->
                In k set \/ exists p, In p points /\ xText (DataPoint.x p) = Some k).
Proof.
  revert set res; induction points as [|p rest IH]; intros set res H; simpl in H.
  - injection H as <-. split; [auto|]. intro k. split; [auto|].
    intros [Hk|[p [[] _]]]. exact Hk.
  - destruct (xText (DataPoint.x p)) as [xValue|] eqn:Hx; simpl in H; [|discriminate].
    apply IH in H. destruct H as [Hnd Hin]. split.
    + intro Hset. apply Hnd. now apply Set_add_NoDup.
    + intro k. rewrite Hin, Set_add_In. split.
      * intros [[Hk| ->]|[q [Hq Hqk]]].
        -- now left.
        -- right. exists p. split; [now left | assumption].
        -- right. exists q. split; [now right | assumption].
      * intros [Hk|[q [[<-|Hq] Hqk]]].
        -- left. now left.
        -- left. right. congruence.
        -- right. now exists q.
Qed.

Lemma collect_series (series : list DataSeries.t) (set res : list string) :
  forEach
    (fun s =>
       forEach
         (fun point set => bind (xText (DataPoint.x point))
                                (fun xValue => Some (Set_add set xValue)))
         (DataSeries.data s))
    series set = Some res ->
  (NoDup set -> NoDup res)
  /\ (forall k, In k res <->
                In k set \/ exists s p, In s series /\ In p (DataSeries.data s)
                                        /\ xText (DataPoint.x p) = Some k).
Proof.
  revert set res; induction series as [|s rest IH]; intros set res H; simpl in H.
  - injection H as <-. split; [auto|]. intro k. split; [auto|].
    intros [Hk|[s [p [[] _]]]]. exact Hk.
  - match type of H with bind ?c _ = _ => destruct c as [set'|] eqn:Hinner end;
      simpl in H; [|discriminate].
    apply collect_points in Hinner. destruct Hinner as [Hnd1 Hin1].
    apply IH in H. destruct H as [Hnd Hin]. split; [auto|].
    intro k. rewrite Hin, Hin1. split.
    + intros [[Hk|[p [Hp Hpk]]]|[s' [p [Hs' [Hp Hpk]]]]].
      * now left.
      * right. exists s, p. split; [now left | now split].
      * right. exists s', p. split; [now right | now split].
    + intros [Hk|[s' [p [[<-|Hs'] [Hp Hpk]]]]].
      * left. now left.
      * left. right. now exists p.
      * right. now exists s', p.
Qed.

(** The distinct x texts of all the points, each once. *)
Lemma allXValues_union (series : list DataSeries.t) (all : list string) :
  allXValues series = Some all ->
  NoDup all
  /\ (forall k, In k all <->
                exists s p, In s series /\ In p (DataSeries.data s)
                            /\ xText (DataPoint.x p) = Some k).
Proof.
  intro H. apply collect_series in H. destruct H as [Hnd Hin].
  split; [apply Hnd; constructor|].
  intro k. rewrite Hin. split; [intros [[]|H]; exact H | now right].
Qed.

(** What [find] returns: the first point at the x text, or nothing
    when the series has no point there. *)
Lemma findPoint_none (xValue : string) (points : list (DataPoint.t float)) :
  findPoint xValue points = Some None ->
  forall p, In p points -> xText (DataPoint.x p) <> Some xValue.
Proof.
  induction points as [|q rest IH]; intros H p Hp; simpl in *; [contradiction|].
  destruct (xText (DataPoint.x q)) as [pointX|] eqn:Hq; simpl in H; [|discriminate].
  destruct (String.eqb_spec pointX xValue) as [->|Hne]; [discriminate|].
  destruct Hp as [<-|Hp]; [congruence | now apply IH].
Qed.

Lemma findPoint_some (xValue : string) (points : list (DataPoint.t float))
      (p : DataPoint.t float) :
  findPoint xValue points = Some (Some p) ->
  In p points /\ xText (DataPoint.x p) = Some xValue.
Proof.
  induction points as [|q rest IH]; intro H; simpl in *; [discriminate|].
  destruct (xText (DataPoint.x q)) as [pointX|] eqn:Hq; simpl in H; [|discriminate].
  destruct (String.eqb_spec pointX xValue) as [->|Hne].
  - injection H as <-. split; [now left | assumption].
  - destruct (IH H) as [Hin Hx]. split; [now right | assumption].
Qed.

(** A cell is blank exactly when the series has no point at the x text;
    otherwise it is the y of a point at that x. *)
Lemma cell_of_cases (xValue : string) (s : DataSeries.t) (cell : string) :
  cell_of xValue s cell ->
  ((forall p, In p (DataSeries.data s) -> xText (DataPoint.x p) <> Some xValue)
   /\ cell = EmptyString)
  \/ (exists p, In p (DataSeries.data s)
                /\ xText (DataPoint.x p) = Some xValue
                /\ cell = Number_toString (DataPoint.y p)).
Proof.
  intros [[p|] [Hfind ->]].
  - right. exists p. apply findPoint_some in Hfind. tauto.
  - left. split; [now apply findPoint_none | reflexivity].
Qed.

Lemma csvRow_cells (series : list DataSeries.t) (xValue : string) (row : list string) :
  csvRow series xValue = Some row ->
  exists cells, row = xValue :: cells /\ Forall2 (cell_of xValue) series cells.
Proof.
  intro H. unfold csvRow in H.
  apply (forEach_push (fun s => findPoint xValue (DataSeries.data s)) csvCell) in H.
  destruct H as [points [Hpoints ->]].
  exists (List.map csvCell points). split; [reflexivity|].
  clear - Hpoints. induction Hpoints; simpl; constructor; [|assumption].
  now exists y.
Qed.

Lemma csvRows_rows (series : list DataSeries.t) (rows : list (list string)) :
  csvRows series = Some rows ->
  exists all, allXValues series = Some all
              /\ Forall2 (fun xValue row => csvRow series xValue = Some row)
                         (Array_sort all) rows.
Proof.
  intro H. unfold csvRows in H.
  destruct (allXValues series) as [all|]; simpl in H; [|discriminate].
  exists all. split; [reflexivity|].
  apply (forEach_push (csvRow series) (fun row => row)) in H.
  destruct H as [rs [Hrs ->]]. simpl. now rewrite map_id.
Qed.
End CsvExport.

(** ** When the CSV export throws *)

Section Throws.
Context {rt : Runtime}.

Lemma xText_none (x : XValue) : xText x = None <-> x = XDate None.
Proof.
  destruct x as [v|[tv|]|s]; simpl; split; intro H; try discriminate; reflexivity.
Qed.

(** A loop throws exactly when one of its bodies does. *)
Lemma forEach_none_elim (X S : Type) (body : X -> S -> option S)
      (arr : list X) (acc : S) :
  forEach body arr acc = None ->
  exists elt acc', In elt arr /\ body elt acc' = None.
Proof.
  revert acc; induction arr as [|elt rest IH]; intros acc H; simpl in H.
  - discriminate.
  - destruct (body elt acc) as [acc1|] eqn:Hbody; simpl in H.
    + destruct (IH _ H) as [e [a [Hin Hnone]]]. exists e, a. split; [now right | exact Hnone].
    + exists elt, acc. split; [now left | exact Hbody].
Qed.

Lemma forEach_none_intro (X S : Type) (body : X -> S -> option S)
      (arr : list X) (elt : X) :
  In elt arr -> (forall acc, body elt acc = None) ->
  forall acc, forEach body arr acc = None.
Proof.
  intros Hin Hnone. induction arr as [|e rest IH]; intro acc; simpl; [contradiction|].
  destruct Hin as [->|Hin].
  - now rewrite Hnone.
  - destruct (body e acc); simpl; [now apply IH | reflexivity].
Qed.

Lemma findPoint_none_elim (xValue : string) (points : list (DataPoint.t float)) :
  findPoint xValue points = None ->
  exists p, In p points /\ DataPoint.x p = XDate None.
Proof.
  induction points as [|q rest IH]; intro H; simpl in H; [discriminate|].
  destruct (xText (DataPoint.x q)) as [pointX|] eqn:Hq; simpl in H.
  - destruct (String.eqb pointX xValue); [discriminate|].
    destruct (IH H) as [p [Hin Hp]]. exists p. split; [now right | exact Hp].
  - exists q. split; [now left | now apply xText_none].
Qed.

Lemma allXValues_none (series : list DataSeries.t) :
  allXValues series = None <-> has_invalid_date series.
Proof.
  unfold allXValues. split.
  - intro H. apply forEach_none_elim in H. destruct H as [s [acc [Hs H]]].
    apply forEach_none_elim in H. destruct H as [p [acc' [Hp H]]].
    destruct (xText (DataPoint.x p)) eqn:Hx; simpl in H; [discriminate|].
    exists s, p. repeat split; try assumption. now apply xText_none.
  - intros [s [p [Hs [Hp Hx]]]].
    apply (forEach_none_intro _ _ s Hs). intro acc.
    apply (forEach_none_intro _ _ p Hp). intro acc'.
    apply xText_none in Hx. now rewrite Hx.
Qed.

Lemma csvText_none (series : list DataSeries.t) :
  csvText series = None <-> has_invalid_date series.
Proof.
  split.
  - intro H. unfold csvText in H.
    destruct (csvRows series) as [rows|] eqn:Hrows; simpl in H; [discriminate|].
    unfold csvRows in Hrows.
    destruct (allXValues series) as [all|] eqn:Hall; simpl in Hrows.
    + apply forEach_none_elim in Hrows. destruct Hrows as [k [rows [_ Hrow]]].
      destruct (csvRow series k) eqn:Hk; simpl in Hrow; [discriminate|].
      unfold csvRow in Hk. apply forEach_none_elim in Hk.
      destruct Hk as [s [row [Hs Hcell]]].
      destruct (findPoint k (DataSeries.data s)) eqn:Hfind; simpl in Hcell;
        [discriminate|].
      apply findPoint_none_elim in Hfind. destruct Hfind as [p [Hp Hx]].
      now exists s, p.
    + now apply allXValues_none.
  - intro H. apply allXValues_none in H. unfold csvText, csvRows. now rewrite H.
Qed.
Lemma handleExportCSV_none_iff (lib : ChartLibrary) (props : Props.t)
      (today : string) (st : State) :
  handleExportCSV props today st = None
  <-> (Props.series props <> [] /\ has_invalid_date (Props.series props)).
Proof.
  unfold handleExportCSV.
  destruct (Props.series props) as [|s0 rest] eqn:Hs.
  - simpl. split; [discriminate | intros [H _]; now elim H].
  - cbn [List.length Nat.eqb].
    destruct (csvText (s0 :: rest)) as [csv|] eqn:Hcsv; cbn [bind].
    + split; [discriminate|]. intros [_ Hbad].
      apply csvText_none in Hbad. congruence.
    + split; [|reflexivity]. intros _. split; [discriminate|].
      now apply csvText_none.
Qed.
End Throws.

(** The rows of the export: one per distinct x text of the points of all
    series, each text once, in strictly ascending code-unit order; a row
    holds its x text and then one cell per series. *)
Lemma csvRows_union (rt : Runtime) (series : list DataSeries.t) (rows : list (list string)) :
  csvRows series = Some rows ->
  exists keys : list string,
    NoDup keys
    /\ Sorted string_lt keys
    /\ (forall k, In k keys <->
                  exists s p, In s series /\ In p (DataSeries.data s)
                              /\ xText (DataPoint.x p) = Some k)
    /\ Forall2 (fun k row => exists cells,
                    row = k :: cells /\ Forall2 (cell_of k) series cells)
               keys rows.
Proof.
  intro H. apply csvRows_rows in H. destruct H as [all [Hall Hrows]].
  apply allXValues_union in Hall. destruct Hall as [Hnd Hin].
  pose proof (Array_sort_perm all) as Hperm.
  assert (Hnd' : NoDup (Array_sort all)).
  { eapply Permutation_NoDup; [apply Permutation_sym; exact Hperm | exact Hnd]. }
  exists (Array_sort all). repeat split.
  - exact Hnd'.
  - apply sorted_NoDup_strict; [apply Array_sort_sorted | exact Hnd'].
  - intro Hk. apply Hin. eapply Permutation_in; eassumption.
  - intro Hk. apply Hin in Hk.
    eapply Permutation_in; [apply Permutation_sym; exact Hperm | exact Hk].
  - clear - Hrows. induction Hrows as [|k row ks rs Hrow _ IH]; constructor; [|exact IH].
    now apply csvRow_cells.
Qed.

(** The example of the specification: A at x = 1, 2 and B at x = 2, 3 give
    three rows, A blank at 3 and B blank at 1. *)
Example csvRows_union_example :
  csvRows (rt := Reference.runtime) [Sample.seriesA; Sample.seriesB]
  = Some [ ["1"; "10"; EmptyString];
           ["2"; "20"; "5"];
           ["3"; EmptyString; "7"] ]%string.
Proof. vm_compute. reflexivity. Qed.

(** C2 at ordinal x-values: a series with points at x = 2 and x = 10 is
    exported with the row of 10 before the row of 2. *)
Theorem csvRows_ordinal_x_order :
  csvRows (rt := Reference.runtime) [Sample.ordinal]
  = Some [ ["10"; "20"]; ["2"; "10"] ]%string.
Proof. vm_compute. reflexivity. Qed.

(** ** The table of the CSV export *)

Section Table.
Context {rt : Runtime}.

Lemma findPoint_first (xValue : string) (points : list (DataPoint.t float))
      (p : DataPoint.t float) :
  findPoint xValue points = Some (Some p) -> first_at xValue points p.
Proof.
  induction points as [|q rest IH]; intro H; simpl in H; [discriminate|].
  destruct (xText (DataPoint.x q)) as [pointX|] eqn:Hq; simpl in H; [|discriminate].
  destruct (String.eqb_spec pointX xValue) as [->|Hne].
  - injection H as <-. exists [], rest. split; [reflexivity|]. split; [exact Hq|].
    intros r [].
  - destruct (IH H) as [before [after [-> [Hx Hfirst]]]].
    exists (q :: before), after. split; [reflexivity|]. split; [exact Hx|].
    intros r [<-|Hr]; [congruence | now apply Hfirst].
Qed.

Lemma append_nil_r (s : string) : (s ++ EmptyString)%string = s.
Proof. induction s as [|a s IH]; simpl; [reflexivity | now rewrite IH]. Qed.

Lemma append_assoc (s t u : string) : ((s ++ t) ++ u)%string = (s ++ t ++ u)%string.
Proof. induction s as [|a s IH]; simpl; [reflexivity | now rewrite IH]. Qed.

Lemma csvText_lines (series : list DataSeries.t) (rows : list (list string)) :
  csvRows series = Some rows ->
  csvText series
  = Some ("Date," ++ String.concat "," (List.map DataSeries.label series) ++ newline
          ++ csvLines rows)%string.
Proof.
  intro H. unfold csvText. rewrite H. cbn [bind]. f_equal.
  unfold csvHeader.
  assert (Hfold : forall init : string,
             fold_left (fun csv row => (csv ++ String.concat "," row ++ newline)%string)
                       rows init
             = (init ++ csvLines rows)%string).
  { clear. induction rows as [|row rest IH]; intro init; simpl.
    - now rewrite append_nil_r.
    - rewrite IH. now rewrite !append_assoc. }
  rewrite Hfold. now rewrite !append_assoc.
Qed.

(** The cells of a row, one per series and in the order of the series. *)
Lemma cells_by_index (xValue : string) (series : list DataSeries.t)
      (cells : list string) :
  Forall2 (cell_of xValue) series cells ->
  List.length cells = List.length series
  /\ forall j s, nth_error series j = Some s ->
       exists cell,
         nth_error cells j = Some cell
         /\ ((exists p, first_at xValue (DataSeries.data s) p
                        /\ cell = Number_toString (DataPoint.y p))
             \/ ((forall p, In p (DataSeries.data s) ->
                            xText (DataPoint.x p) <> Some xValue)
                 /\ cell = EmptyString)).
Proof.
  induction 1 as [|s0 cell0 rest cells0 Hcell _ [IHlen IH]].
  - split; [reflexivity|]. intros [|j] s Hs; discriminate.
  - split; [simpl; now rewrite IHlen|].
    intros [|j] s Hs; simpl in Hs.
    + injection Hs as <-. exists cell0. split; [reflexivity|].
      destruct Hcell as [[p|] [Hfind ->]].
      * left. exists p. split; [now apply findPoint_first | reflexivity].
      * right. split; [now apply findPoint_none | reflexivity].
    + now apply IH.
Qed.
End Table.

(** C4, as the code has it.  The CSV export reads the supplied series
    list and never the visible list.  When it returns (a series is
    supplied and no x is an invalid date) it writes, in every state of the
    component, the same table: a header with the label of every supplied
    series, visible or not, and one row for each distinct x text of a
    point of any supplied series; a row holds its x text and then one cell
    per supplied series, in their order: the y of the first point of the
    series at that x, or the empty text when the series has no point
    there.  The PNG export hands over the image that the registered chart
    instance returns. *)
Theorem handleExportCSV_exports_every_series :
  forall (lib : ChartLibrary) (rt : Runtime) (props : Props.t) (today : string),
    let series := Props.series props in
    (series <> [] ->
     ~ has_invalid_date series ->
     exists (keys : list string) (rows : list (list string)),
       (forall st : State,
           let csv :=
             ("Date," ++ String.concat "," (List.map DataSeries.label series) ++ newline
              ++ csvLines rows)%string in
           handleExportCSV props today st
           = Some ([NewBlob csv "text/csv;charset=utf-8;";
                    Download (string_or (Props.title props) "chart-data"
                              ++ "-" ++ today ++ ".csv")%string]
                   ++ (if Props.onExport props then [CallOnExport Kind_csv csv] else [])))
       /\ NoDup keys
       /\ (forall k, In k keys <->
                     exists s p, In s series /\ In p (DataSeries.data s)
                                 /\ xText (DataPoint.x p) = Some k)
       /\ Forall2
            (fun k row =>
               exists cells,
                 row = k :: cells
                 /\ List.length cells = List.length series
                 /\ forall j s, nth_error series j = Some s ->
                      exists cell,
                        nth_error cells j = Some cell
                        /\ ((exists p, first_at k (DataSeries.data s) p
                                       /\ cell = Number_toString (DataPoint.y p))
                            \/ ((forall p, In p (DataSeries.data s) ->
                                           xText (DataPoint.x p) <> Some k)
                                /\ cell = EmptyString)))
            keys rows)
    /\ (forall (st : State) (chart : ChartJS),
          chartInstance st = Some chart ->
          handleExportPNG props today st
          = [ChartCall chart toBase64Image_call;
             Download (string_or (Props.title props) "chart" ++ "-" ++ today ++ ".png")%string]
            ++ (if Props.onExport props
                then [CallOnExport Kind_png (toBase64Image chart)]
                else [])).
Proof.
  intros lib rt props today series. subst series. split.
  - intros Hsome Hvalid.
    assert (Hlen : (List.length (Props.series props) =? 0)%nat = false)
      by (destruct (Props.series props); [now elim Hsome | reflexivity]).
    set (series := Props.series props) in *.
    destruct (csvRows series) as [rows|] eqn:Hrows.
    + pose proof (@csvRows_union rt _ _ Hrows) as [keys [Hdistinct [_ [Hkeys Hcells]]]].
      exists keys, rows. split; [|split; [exact Hdistinct|split]].
      * intros st csv. unfold handleExportCSV. fold series.
        cbv zeta. rewrite Hlen, (@csvText_lines rt _ _ Hrows). reflexivity.
      * exact Hkeys.
      * clear - Hcells. induction Hcells as [|k row ks rs [cells [-> Hrow]] _ IH];
          constructor; [|exact IH].
        exists cells. split; [reflexivity|]. now apply cells_by_index.
    + elim Hvalid. apply csvText_none. unfold csvText. now rewrite Hrows.
  - intros st chart Hchart. unfold handleExportPNG. now rewrite Hchart.
Qed.

Lemma handleExportCSV_exports_every_series_witness :
  let series := [Sample.seriesA; Cases.hiddenB] in
  exists (keys : list string) (rows : list (list string)),
    (forall st : State,
        handleExportCSV (lib := Reference.chart) (rt := Reference.runtime)
                        (Sample.props_of series) "2024-01-01" st
        = Some (let csv := ("Date,A,B" ++ newline ++ csvLines rows)%string in
                [NewBlob csv "text/csv;charset=utf-8;";
                 Download "chart-data-2024-01-01.csv";
                 CallOnExport Kind_csv csv]))
    /\ (forall k, In k keys <->
                  exists s p, In s series /\ In p (DataSeries.data s)
                              /\ xText (rt := Reference.runtime) (DataPoint.x p) = Some k).
Proof.
  intro series.
  destruct (@handleExportCSV_exports_every_series Reference.chart Reference.runtime
              (Sample.props_of series) "2024-01-01"%string) as [Hcsv _].
  destruct Hcsv as [keys [rows [Htext [_ [Hkeys _]]]]].
  - discriminate.
  - intros [s [p [Hs [Hp Hx]]]].
    destruct Hs as [<-|[<-|[]]]; simpl in Hp;
      repeat (destruct Hp as [<-|Hp]; [discriminate|]); contradiction.
  - exists keys, rows. split; [exact Htext | exact Hkeys].
Defined.

(** The table of the example of the specification, B hidden. *)
Example csv_table_example :
  csvRows (rt := Reference.runtime) [Sample.seriesA; Cases.hiddenB]
  = Some [ ["1"; "10"; EmptyString];
           ["2"; "20"; "5"];
           ["3"; EmptyString; "7"] ]%string.
Proof. vm_compute. reflexivity. Qed.

(** C4 as stated fails: with only A visible, the exported table still has
    the column of B and its values. *)
Lemma csv_export_includes_hidden_series :
  let props := Sample.props_of [Sample.seriesA; Sample.seriesB] in
  let st := Sample.state_of ["A"]%string false false None in
  Array.includes (visibleSeries st) (DataSeries.id Sample.seriesB) = false
  /\ handleExportCSV (rt := Reference.runtime) props "2024-01-01" st
     = Some [ NewBlob ("Date,A,B" ++ newline
                       ++ "1,10," ++ newline
                       ++ "2,20,5" ++ newline
                       ++ "3,,7" ++ newline)%string
                      "text/csv;charset=utf-8;";
              Download "chart-data-2024-01-01.csv";
              CallOnExport Kind_csv
                ("Date,A,B" ++ newline
                 ++ "1,10," ++ newline
                 ++ "2,20,5" ++ newline
                 ++ "3,,7" ++ newline)%string ].
Proof. split; vm_compute; reflexivity. Qed.

(** C8, as the code has it.  With no series the CSV export does nothing:
    no exception, no blob, no callback; and with no series or with only
    series without points the export control is not rendered, so the
    click does nothing either.  The visible list is not consulted. *)
Theorem export_csv_without_data_is_noop :
  forall (lib : ChartLibrary) (rt : Runtime) (props : Props.t) (today : string) (st : State),
    (Props.series props = [] -> handleExportCSV props today st = Some [])
    /\ (Forall (fun s => DataSeries.data s = []) (Props.series props) ->
        dispatch props st (ClickExportCSV today) = Some (st, [])).
Proof.
  intros lib rt props today st. split.
  - intro Hnone. unfold handleExportCSV. now rewrite Hnone.
  - intro Hempty. unfold dispatch.
    assert (Hview : is_ChartView props = false).
    { unfold is_ChartView, view.
      destruct (Props.loading props); [reflexivity|].
      destruct (string_truthy (Props.error props)); [reflexivity|].
      assert (Hall : forallb (fun s => (List.length (DataSeries.data s) =? 0)%nat)
                             (Props.series props) = true).
      { apply forallb_forall. intros s Hs.
        rewrite Forall_forall in Hempty. now rewrite (Hempty s Hs). }
      now rewrite Hall, orb_true_r. }
    now rewrite Hview.
Qed.

Lemma export_csv_without_data_is_noop_witness :
  handleExportCSV (rt := Reference.runtime) (Sample.props_of []) "2024-01-01"
                  (Sample.state_of [] false false None) = Some []
  /\ dispatch (rt := Reference.runtime) (Sample.props_of [Sample.series_of "A" "A" []])
              (Sample.state_of ["A"]%string false false None)
              (ClickExportCSV "2024-01-01")
     = Some (Sample.state_of ["A"]%string false false None, []).
Proof.
  split.
  - apply (proj1 (@export_csv_without_data_is_noop Reference.chart Reference.runtime
                    (Sample.props_of []) "2024-01-01"%string
                    (Sample.state_of [] false false None))).
    reflexivity.
  - apply (proj2 (@export_csv_without_data_is_noop Reference.chart Reference.runtime
                    (Sample.props_of [Sample.series_of "A" "A" []])
                    "2024-01-01"%string
                    (Sample.state_of ["A"]%string false false None))).
    repeat constructor.
Defined.

(** C8 as stated fails: after the only series is toggled off, no series
    is visible, and the export still builds the blob and calls
    [onExport]. *)
Lemma csv_export_runs_with_no_visible_series :
  let props := Sample.props_of [Sample.seriesA] in
  let st := mkState (lib := Reference.chart) line false true []
                    None (TimeRange.mk None None) false in
  run (rt := Reference.runtime) props (initialState props)
      [SeriesEffect; ClickSettings; ClickSeriesChip "A"; ClickExportCSV "2024-01-01"]
  = Some (st,
          [ NewBlob ("Date,A" ++ newline ++ "1,10" ++ newline ++ "2,20" ++ newline)%string
                    "text/csv;charset=utf-8;";
            Download "chart-data-2024-01-01.csv";
            CallOnExport Kind_csv
              ("Date,A" ++ newline ++ "1,10" ++ newline ++ "2,20" ++ newline)%string ])
  /\ visibleSeries st = []
  /\ datasets (chartData Sample.theme props st) = [].
Proof.
  split; [vm_compute; reflexivity | split; reflexivity].
Qed.

(** X1.  In every run of events a callback of the parent is called only
    if it was supplied: without [onRangeChange] no range notification is
    made, without [onExport] no export notification. *)
Theorem callbacks_called_only_when_supplied :
  forall (lib : ChartLibrary) (rt : Runtime) (props : Props.t)
         (events : list Event) (st st' : State) (trace : list Effect),
    run props st events = Some (st', trace) ->
    (Props.onRangeChange props = false ->
     forall range, ~ In (CallOnRangeChange range) trace)
    /\ (Props.onExport props = false ->
        forall kind payload, ~ In (CallOnExport kind payload) trace).
Proof.
  intros lib rt props events st st' trace Hrun.
  destruct (@run_invariant lib rt props (fun _ => True) (supplied props)
              (@dispatch_supplied lib rt props) events st st' trace I Hrun)
    as [_ Hall].
  rewrite Forall_forall in Hall.
  split; intros Hoff; intros; intro Hin; apply Hall in Hin; simpl in Hin; congruence.
Qed.

(** X2.  The CSV export throws exactly when the series list is not empty
    and some point has an invalid date as its x (the [toISOString] of such
    a date throws); otherwise it returns. *)
Theorem handleExportCSV_throws_iff_invalid_date :
  forall (lib : ChartLibrary) (rt : Runtime) (props : Props.t) (today : string)
         (st : State),
    handleExportCSV props today st = None
    <-> (Props.series props <> []
         /\ exists s p, In s (Props.series props)
                        /\ In p (DataSeries.data s)
                        /\ DataPoint.x p = XDate None).
Proof.
  intros lib rt props today st. apply handleExportCSV_none_iff.
Qed.

Section Runs.
Context {lib : ChartLibrary} {rt : Runtime}.

Lemma dispatch_throws (props : Props.t) (st : State) (ev : Event) :
  dispatch props st ev = None ->
  Props.enableExport props = true /\ has_invalid_date (Props.series props).
Proof.
  intro H. unfold dispatch in H.
  destruct ev; try discriminate H;
    destruct (negb (is_ChartView props)); try discriminate H;
    repeat match type of H with
           | context [if ?c then _ else _] => destruct c eqn:?
           end;
    try discriminate H.
  destruct (handleExportCSV props today st) eqn:Hcsv; simpl in H; [discriminate|].
  apply handleExportCSV_none_iff in Hcsv. tauto.
Qed.

Lemma dispatch_zoom_disabled (props : Props.t) (st st' : State) (ev : Event)
      (trace : list Effect) :
  Props.enableZoom props = false ->
  isZoomed st = false -> dispatch props st ev = Some (st', trace) ->
  isZoomed st' = false /\ Forall (fun e => zoom_effect e = false) trace.
Proof.
  intros Hoff Hst H. unfold dispatch in H. rewrite Hoff in H.
  dispatch_cases H; split_ifs; simpl; auto; repeat constructor.
Qed.

Lemma dispatch_export_disabled (props : Props.t) (st st' : State) (ev : Event)
      (trace : list Effect) :
  Props.enableExport props = false ->
  True -> dispatch props st ev = Some (st', trace) ->
  True /\ Forall (fun e => export_effect e = false) trace.
Proof.
  intros Hoff _ H. split; [exact I|]. unfold dispatch in H. rewrite Hoff in H.
  dispatch_cases H; split_ifs; repeat constructor.
Qed.

Lemma dispatch_chartInstance (props : Props.t) (st st' : State) (ev : Event)
      (trace : list Effect) :
  chartInstance st <> None -> dispatch props st ev = Some (st', trace) ->
  chartInstance st' <> None /\ Forall (fun _ => True) trace.
Proof.
  intros Hst H. split; [|now apply Forall_forall].
  dispatch_cases H; simpl; auto; try discriminate; try congruence.
Qed.

Lemma dispatch_visible_known (props : Props.t) (st st' : State) (ev : Event)
      (trace : list Effect) :
  incl (visibleSeries st) (List.map DataSeries.id (Props.series props)) ->
  dispatch props st ev = Some (st', trace) ->
  incl (visibleSeries st') (List.map DataSeries.id (Props.series props))
  /\ Forall (fun _ => True) trace.
Proof.
  intros Hst H. split; [|now apply Forall_forall].
  unfold dispatch in H.
  destruct ev;
    try (dispatch_cases H; simpl; exact Hst).
  - (* the effect on [series] *)
    dispatch_cases H; simpl; [|exact Hst].
    intros i Hi. apply in_map_iff in Hi. destruct Hi as [s [<- Hs]].
    apply filter_In in Hs. apply in_map. tauto.
  - (* a chip *)
    destruct (negb (is_ChartView props)); [injection H as <- _; exact Hst|].
    destruct (showSettings st && _)%bool eqn:Hchip; injection H as <- _; [|exact Hst].
    apply andb_true_iff in Hchip. destruct Hchip as [_ Hknown].
    apply existsb_exists in Hknown. destruct Hknown as [s [Hs Heq]].
    apply String.eqb_eq in Heq.
    intros i Hi. rewrite toggle_membership in Hi.
    destruct (String.eqb_spec i seriesId) as [Hi'|_]; [|now apply Hst].
    rewrite Hi', <- Heq. now apply in_map.
Qed.
End Runs.

Section RunFacts.
Context {lib : ChartLibrary} {rt : Runtime}.

Lemma run_throws (props : Props.t) (events : list Event) (st : State) :
  run props st events = None ->
  Props.enableExport props = true /\ has_invalid_date (Props.series props).
Proof.
  revert st; induction events as [|ev rest IH]; intros st H; simpl in H.
  - discriminate.
  - destruct (dispatch props st ev) as [[st1 trace1]|] eqn:Hstep; simpl in H.
    + destruct (run props st1 rest) as [[st2 trace2]|] eqn:Hrest; simpl in H;
        [discriminate | now apply (IH st1)].
    + now apply (dispatch_throws props st ev).
Qed.

Lemma run_visible_known (props : Props.t) (events : list Event) (st : State)
      (trace : list Effect) :
  run props (initialState props) events = Some (st, trace) ->
  incl (visibleSeries st) (List.map DataSeries.id (Props.series props)).
Proof.
  intro Hrun.
  apply (@run_invariant lib rt props
           (fun s => incl (visibleSeries s) (List.map DataSeries.id (Props.series props)))
           (fun _ => True) (@dispatch_visible_known lib rt props)
           events (initialState props) st trace); [|exact Hrun].
  intros i [].
Qed.

(** The visible series of a state in which every visible id is known
    and the ids are unique: one per visible id. *)
Lemma visible_count (series : list DataSeries.t) (visible : list string) :
  NoDup (List.map DataSeries.id series) ->
  NoDup visible ->
  incl visible (List.map DataSeries.id series) ->
  List.length (List.filter (fun s => Array.includes visible (DataSeries.id s)) series)
  = List.length visible.
Proof.
  intros Hids Hvis Hknown.
  rewrite <- (length_map DataSeries.id).
  apply Permutation_length. apply NoDup_Permutation; [| exact Hvis |].
  - clear - Hids. induction series as [|s rest IH]; simpl; [constructor|].
    inversion Hids as [|? ? Hnotin Hrest]; subst.
    destruct (Array.includes visible (DataSeries.id s)); simpl; [|auto].
    constructor; [|auto]. intro Hin. apply Hnotin.
    apply in_map_iff in Hin. destruct Hin as [s' [Heq Hs']].
    apply filter_In in Hs'. apply in_map_iff. exists s'. tauto.
  - intro i. rewrite in_map_iff. split.
    + intros [s [<- Hs]]. apply filter_In in Hs. now apply includes_In.
    + intro Hi. pose proof (Hknown i Hi) as Hin.
      apply in_map_iff in Hin. destruct Hin as [s [<- Hs]].
      exists s. split; [reflexivity|]. apply filter_In. split; [exact Hs|].
      now apply includes_In.
Qed.
End RunFacts.

(** X3.  A run of events throws only through the CSV export of a series
    with an invalid date: if it throws, export is enabled and some point
    has an invalid date as its x. *)
Theorem run_throws_only_on_invalid_date :
  forall (lib : ChartLibrary) (rt : Runtime) (props : Props.t)
         (events : list Event) (st : State),
    run props st events = None ->
    Props.enableExport props = true
    /\ exists s p, In s (Props.series props)
                   /\ In p (DataSeries.data s)
                   /\ DataPoint.x p = XDate None.
Proof.
  intros lib rt props events st H. now apply (run_throws props events st).
Qed.

Lemma run_throws_only_on_invalid_date_witness :
  Props.enableExport (Sample.props_of [Cases.broken]) = true
  /\ exists s p, In s (Props.series (Sample.props_of [Cases.broken]))
                 /\ In p (DataSeries.data s)
                 /\ DataPoint.x p = XDate None.
Proof.
  apply (@run_throws_only_on_invalid_date Reference.chart Reference.runtime
           (Sample.props_of [Cases.broken])
           [SeriesEffect; ClickExportCSV "2024-01-01"]
           (initialState (Sample.props_of [Cases.broken]))).
  vm_compute. reflexivity.
Defined.

(** X4.  With zoom disabled, no run of events from the initial state
    zooms: the zoomed flag stays off, and the trace holds no zoom or reset
    call on the chart and no range notification. *)
Theorem zoom_disabled_never_zooms :
  forall (lib : ChartLibrary) (rt : Runtime) (props : Props.t)
         (events : list Event) (st : State) (trace : list Effect),
    Props.enableZoom props = false ->
    run props (initialState props) events = Some (st, trace) ->
    isZoomed st = false
    /\ forall e, In e trace -> zoom_effect e = false.
Proof.
  intros lib rt props events st trace Hoff Hrun.
  destruct (@run_invariant lib rt props
              (fun s => isZoomed s = false) (fun e => zoom_effect e = false)
              (fun s s' ev tr => @dispatch_zoom_disabled lib rt props s s' ev tr Hoff)
              events (initialState props) st trace eq_refl Hrun) as [Hflag Hall].
  split; [exact Hflag|]. now apply Forall_forall.
Qed.

Lemma zoom_disabled_never_zooms_witness :
  isZoomed (mkState (lib := Reference.chart) line false false ["A"]%string
                    (Some Sample.canvas) (TimeRange.mk None None) false) = false
  /\ forall e, In e (@nil (@Effect Reference.chart)) -> zoom_effect e = false.
Proof.
  apply (@zoom_disabled_never_zooms Reference.chart Reference.runtime
           (Cases.fixed [Sample.seriesA])
           [SeriesEffect; ChartRef (Some Sample.canvas); ClickZoomIn;
            ZoomComplete (Some 0%Z) (Some 1%Z); ClickResetZoom]).
  - reflexivity.
  - vm_compute. reflexivity.
Defined.

(** X5.  With export disabled, every run of events returns, and its trace
    holds no chart capture, blob, download or export notification. *)
Theorem export_disabled_never_exports :
  forall (lib : ChartLibrary) (rt : Runtime) (props : Props.t)
         (events : list Event) (st : State),
    Props.enableExport props = false ->
    exists (st' : State) (trace : list Effect),
      run props st events = Some (st', trace)
      /\ forall e, In e trace -> export_effect e = false.
Proof.
  intros lib rt props events st Hoff.
  destruct (run props st events) as [[st' trace]|] eqn:Hrun.
  - exists st', trace. split; [reflexivity|].
    destruct (@run_invariant lib rt props
                (fun _ => True) (fun e => export_effect e = false)
                (fun s s' ev tr => @dispatch_export_disabled lib rt props s s' ev tr Hoff)
                events st st' trace I Hrun) as [_ Hall].
    now apply Forall_forall.
  - apply run_throws in Hrun. destruct Hrun as [Hon _]. congruence.
Qed.

Lemma export_disabled_never_exports_witness :
  exists (st' : @State Reference.chart) (trace : list Effect),
    run (rt := Reference.runtime) (Cases.closed [Cases.broken])
        (initialState (Cases.closed [Cases.broken]))
        [SeriesEffect; ClickExportCSV "2024-01-01"; ClickExportPNG "2024-01-01"]
    = Some (st', trace)
    /\ forall e, In e trace -> export_effect e = false.
Proof.
  apply (@export_disabled_never_exports Reference.chart Reference.runtime
           (Cases.closed [Cases.broken])).
  reflexivity.
Defined.

(** X6.  The chart handle, once registered, is kept through every run of
    events: a later null ref does not clear it. *)
Theorem chart_handle_is_kept :
  forall (lib : ChartLibrary) (rt : Runtime) (props : Props.t)
         (events : list Event) (st st' : State) (trace : list Effect),
    chartInstance st <> None ->
    run props st events = Some (st', trace) ->
    chartInstance st' <> None.
Proof.
  intros lib rt props events st st' trace Hset Hrun.
  now destruct (@run_invariant lib rt props
                  (fun s => chartInstance s <> None) (fun _ => True)
                  (@dispatch_chartInstance lib rt props)
                  events st st' trace Hset Hrun).
Qed.

Lemma chart_handle_is_kept_witness :
  chartInstance
    (mkState (lib := Reference.chart) bar false false ["A"]%string
             (Some Sample.canvas) (TimeRange.mk None None) false) <> None.
Proof.
  apply (@chart_handle_is_kept Reference.chart Reference.runtime
           (Sample.props_of [Sample.seriesA])
           [ClickChartType bar; ChartRef None]
           (Sample.state_of ["A"]%string false false (Some Sample.canvas))
           _ []).
  - discriminate.
  - vm_compute. reflexivity.
Defined.

Lemma callbacks_called_only_when_supplied_witness :
  (forall range,
      ~ In (CallOnRangeChange range)
           [ChartCall Sample.canvas (zoom 0x1.199999999999ap+0%float);
            ChartCall Sample.canvas resetZoom])
  /\ (forall kind payload,
        ~ In (CallOnExport kind payload)
             [ChartCall Sample.canvas (zoom 0x1.199999999999ap+0%float);
              ChartCall Sample.canvas resetZoom]).
Proof.
  destruct (@callbacks_called_only_when_supplied Reference.chart Reference.runtime
              (Cases.silent [Sample.seriesA])
              [SeriesEffect; ChartRef (Some Sample.canvas); ClickZoomIn; ClickResetZoom]
              (initialState (Cases.silent [Sample.seriesA]))
              (Sample.state_of ["A"]%string false false (Some Sample.canvas))
              [ChartCall Sample.canvas (zoom 0x1.199999999999ap+0%float);
               ChartCall Sample.canvas resetZoom]) as [Hrange Hexport].
  - vm_compute. reflexivity.
  - split; [apply Hrange | apply Hexport]; reflexivity.
Defined.

(** ** What holds across re-renders *)

Section SessionInvariant.
Context {lib : ChartLibrary} {rt : Runtime}.

Lemma initVisibleSeries_ok (props : Props.t) (st : State) :
  visible_ok props (initVisibleSeries props st).
Proof.
  intro Hsome. unfold initVisibleSeries.
  destruct (Props.series props) as [|s0 rest] eqn:Hs; [now elim Hsome|].
  cbn [List.length Nat.ltb Nat.leb]. rewrite <- Hs. cbn [visibleSeries setVisibleSeries].
  split.
  - intros i Hi. apply in_map_iff in Hi. destruct Hi as [s [<- Hin]].
    apply filter_In in Hin. apply in_map. tauto.
  - clear. intro Hids. induction (Props.series props) as [|s rest IH]; simpl.
    + constructor.
    + inversion Hids as [|? ? Hnotin Hrest]; subst.
      destruct (negb (bool_or (DataSeries.hidden s) false)); simpl; [|auto].
      constructor; [|auto].
      intro Hin. apply Hnotin. apply in_map_iff in Hin.
      destruct Hin as [s' [Heq Hin]]. apply filter_In in Hin.
      apply in_map_iff. exists s'. tauto.
Qed.

Lemma dispatch_visible_ok (props : Props.t) (st st' : State) (ev : Event)
      (trace : list Effect) :
  visible_ok props st -> dispatch props st ev = Some (st', trace) ->
  visible_ok props st'.
Proof.
  intros Hok Hstep Hsome. destruct (Hok Hsome) as [Hknown Hnd]. split.
  - now apply (dispatch_visible_known props st ev Hknown Hstep).
  - intro Hids. exact (dispatch_NoDup props st ev Hids (Hnd Hids) Hstep).
Qed.

Lemma step_settled_ok (m m' : Mounted) (s : Step) (trace : list Effect) :
  settled_ok m -> step m s = Some (m', trace) -> settled_ok m'.
Proof.
  intros Hok H. destruct s as [ev|next|next]; simpl in H.
  - destruct (dispatch (lastProps m) (cells m) ev) as [[st' tr]|] eqn:Hstep;
      simpl in H; [|discriminate].
    injection H as <- _. intro Hdone. simpl in *.
    destruct ev; simpl in Hdone;
      try (eapply dispatch_visible_ok; [exact (Hok Hdone) | exact Hstep]).
    simpl in Hstep. injection Hstep as <- _. apply initVisibleSeries_ok.
  - injection H as <- _. intro Hdone. discriminate Hdone.
  - injection H as <- _. intro Hdone. exact (Hok Hdone).
Qed.

Lemma session_settled_ok (steps : list Step) (m m' : Mounted) (trace : list Effect) :
  settled_ok m -> session m steps = Some (m', trace) -> settled_ok m'.
Proof.
  revert m trace.
  induction steps as [|s rest IH]; intros m trace Hok H; simpl in H.
  - injection H as <- _. exact Hok.
  - destruct (step m s) as [[m1 trace1]|] eqn:Hstep; simpl in H; [|discriminate].
    destruct (session m1 rest) as [[m2 trace2]|] eqn:Hrest; simpl in H; [|discriminate].
    injection H as <- _.
    eapply IH; [|exact Hrest]. eapply step_settled_ok; eassumption.
Qed.

Lemma mount_settled_ok (props : Props.t) : settled_ok (mount props).
Proof. intro Hdone. discriminate Hdone. Qed.

Lemma ChartView_series (props : Props.t) :
  is_ChartView props = true -> Props.series props <> [].
Proof.
  unfold is_ChartView, view. intros H Hnil. rewrite Hnil in H.
  destruct (Props.loading props); [discriminate|].
  destruct (string_truthy (Props.error props)); discriminate.
Qed.
End SessionInvariant.

(** X7.  Across events and re-renders from the mount, once the effect on
    [series] has run: whenever a series is supplied, each visible id is
    the id of a series of the last render, and the caption "No data series
    selected" is shown exactly when the chart view is shown with no
    dataset. *)
Theorem visible_ids_known_and_caption :
  forall (lib : ChartLibrary) (rt : Runtime) (theme : Theme.t) (props : Props.t)
         (steps : list Step) (m : Mounted) (trace : list Effect),
    session (mount props) steps = Some (m, trace) ->
    effectPending m = false ->
    (Props.series (lastProps m) <> [] ->
     forall id, In id (visibleSeries (cells m)) ->
                exists s, In s (Props.series (lastProps m)) /\ DataSeries.id s = id)
    /\ (noSeriesCaption (lastProps m) (cells m) = true
        <-> is_ChartView (lastProps m) = true /\ rendered theme m = []).
Proof.
  intros lib rt theme props steps m trace Hrun Hdone.
  pose proof (session_settled_ok steps (mount_settled_ok (props := props)) Hrun Hdone) as Hok.
  destruct m as [props' st pending]. unfold rendered.
  cbn [lastProps cells effectPending] in *.
  assert (Hids : Props.series props' <> [] ->
                 forall id, In id (visibleSeries st) ->
                            exists s, In s (Props.series props') /\ DataSeries.id s = id).
  { intros Hsome i Hi. apply (Hok Hsome) in Hi. apply in_map_iff in Hi.
    destruct Hi as [s [Heq Hs]]. now exists s. }
  split; [exact Hids|].
  unfold noSeriesCaption. rewrite andb_true_iff, datasets_chartData. split.
  - intros [Hview Hnone]. split; [exact Hview|].
    apply Nat.eqb_eq in Hnone. apply length_zero_iff_nil in Hnone.
    assert (Hfilter : List.filter (visible_in st) (Props.series props') = []).
    { unfold visible_in. rewrite Hnone. clear.
      induction (Props.series props') as [|s rest IH]; simpl; [reflexivity | exact IH]. }
    rewrite Hfilter. simpl. now destruct (showTrendline st).
  - intros [Hview Hempty]. split; [exact Hview|].
    apply app_eq_nil in Hempty. destruct Hempty as [Hprimary _].
    apply map_eq_nil in Hprimary.
    destruct (visibleSeries st) as [|i rest] eqn:Hvis; [reflexivity|].
    destruct (Hids (ChartView_series _ Hview) i (or_introl eq_refl)) as [s [Hs Hi]].
    assert (Hin : In s (List.filter (visible_in st) (Props.series props'))).
    { apply filter_In. split; [exact Hs|]. unfold visible_in.
      apply includes_In. rewrite Hvis, Hi. now left. }
    rewrite Hprimary in Hin. contradiction.
Qed.

Lemma visible_ids_known_and_caption_witness :
  let next := Sample.props_of [Sample.seriesB] in
  let st := mkState (lib := Reference.chart) line false true [] None
                    (TimeRange.mk None None) false in
  noSeriesCaption next st = true
  <-> is_ChartView next = true /\ rendered Sample.theme (mkMounted next st false) = [].
Proof.
  intros next st.
  apply (@visible_ids_known_and_caption Reference.chart Reference.runtime Sample.theme
           (Sample.props_of [Sample.seriesA; Sample.seriesB])
           [Fire SeriesEffect; NewSeries (Sample.props_of []); Fire SeriesEffect;
            NewSeries next; Fire SeriesEffect;
            Fire ClickSettings; Fire (ClickSeriesChip "B"%string)]
           (mkMounted next st false) []).
  - vm_compute. reflexivity.
  - reflexivity.
Defined.

(** X8.  Across events and re-renders from the mount, once the effect on
    [series] has run: when the series of the last render have unique ids,
    the render model holds one dataset per visible id, and two with the
    trend line on; when no series is supplied it holds none, whatever the
    visible list has kept. *)
Theorem dataset_count :
  forall (lib : ChartLibrary) (rt : Runtime) (theme : Theme.t) (props : Props.t)
         (steps : list Step) (m : Mounted) (trace : list Effect),
    session (mount props) steps = Some (m, trace) ->
    (effectPending m = false ->
     Props.series (lastProps m) <> [] ->
     NoDup (List.map DataSeries.id (Props.series (lastProps m))) ->
     List.length (rendered theme m)
     = (if showTrendline (cells m) then 2 else 1) * List.length (visibleSeries (cells m)))
    /\ (Props.series (lastProps m) = [] -> rendered theme m = []).
Proof.
  intros lib rt theme props steps m trace Hrun.
  pose proof (session_settled_ok steps (mount_settled_ok (props := props)) Hrun) as Hok.
  destruct m as [props' st pending]. unfold rendered.
  cbn [lastProps cells effectPending] in *.
  split.
  - intros Hdone Hsome Hids. destruct (Hok Hdone Hsome) as [Hknown Hnd].
    assert (Hcount : List.length (List.filter (visible_in st) (Props.series props'))
                     = List.length (visibleSeries st))
      by (apply visible_count; auto).
    rewrite datasets_chartData, length_app, length_map, Hcount.
    destruct (showTrendline st); [rewrite length_map, Hcount|]; simpl; lia.
  - intro Hnone. rewrite datasets_chartData, Hnone. simpl. now destruct (showTrendline st).
Qed.

Lemma dataset_count_witness :
  let next := Sample.props_of [Sample.waterLevel; Sample.rainfall; Sample.temperature] in
  let st := mkState (lib := Reference.chart) line true true
                    ["waterLevel"; "rainfall"]%string None
                    (TimeRange.mk None None) false in
  List.length (rendered Sample.theme (mkMounted next st false)) = 2 * 2.
Proof.
  intros next st.
  apply (@dataset_count Reference.chart Reference.runtime Sample.theme
           (Sample.props_of [Sample.seriesA])
           [Fire SeriesEffect; NewSeries (Sample.props_of []); Fire SeriesEffect;
            NewSeries next; Fire SeriesEffect;
            Fire ClickSettings; Fire (ClickSeriesChip "temperature"%string);
            Fire ClickTrend]
           (mkMounted next st false) []).
  - vm_compute. reflexivity.
  - reflexivity.
  - discriminate.
  - simpl. repeat constructor; simpl; intuition discriminate.
Defined.

(** A change of the series to the empty list keeps the visible ids of
    the render before, and the render model is empty. *)
Example stale_visible_list :
  option_map (fun r => (visibleSeries (cells (fst r)),
                        List.length (rendered Sample.theme (fst r))))
    (session (lib := Reference.chart) (rt := Reference.runtime)
             (mount (Sample.props_of [Sample.seriesA; Sample.seriesB]))
             [Fire SeriesEffect; NewSeries (Sample.props_of []); Fire SeriesEffect])
  = Some (["A"; "B"]%string, 0).
Proof. vm_compute. reflexivity. Qed.

(** The render between a change of the series and its effect: the
    visible ids are those of the render before, so no dataset is drawn
    and no caption says so. *)
Example render_before_the_effect :
  option_map (fun r => (effectPending (fst r),
                        visibleSeries (cells (fst r)),
                        List.length (rendered Sample.theme (fst r)),
                        noSeriesCaption (lastProps (fst r)) (cells (fst r))))
    (session (lib := Reference.chart) (rt := Reference.runtime)
             (mount (Sample.props_of [Sample.seriesA]))
             [Fire SeriesEffect; NewSeries (Sample.props_of [Sample.seriesB])])
  = Some (true, ["A"]%string, 0, false).
Proof. vm_compute. reflexivity. Qed.

(** ** Mounting and zooming *)

Lemma unique_id (series : list DataSeries.t) (s s' : DataSeries.t) :
  NoDup (List.map DataSeries.id series) ->
  In s series -> In s' series -> DataSeries.id s = DataSeries.id s' -> s = s'.
Proof.
  induction series as [|a rest IH]; intros Hnd Hs Hs' Heq; [contradiction|].
  simpl in Hnd. inversion Hnd as [|? ? Hnotin Hrest]; subst.
  destruct Hs as [<-|Hs], Hs' as [<-|Hs'].
  - reflexivity.
  - elim Hnotin. rewrite Heq. now apply in_map.
  - elim Hnotin. rewrite <- Heq. now apply in_map.
  - now apply IH.
Qed.

Lemma initVisibleSeries_includes (lib : ChartLibrary) (props : Props.t) (st : State)
      (s : DataSeries.t) :
  Props.series props <> [] ->
  NoDup (List.map DataSeries.id (Props.series props)) ->
  In s (Props.series props) ->
  Array.includes (visibleSeries (initVisibleSeries props st)) (DataSeries.id s)
  = negb (bool_or (DataSeries.hidden s) false).
Proof.
  intros Hsome Hids Hs. unfold initVisibleSeries.
  destruct (Props.series props) as [|s0 rest] eqn:Hseries; [now elim Hsome|].
  cbn [List.length Nat.ltb Nat.leb]. cbn [visibleSeries setVisibleSeries].
  rewrite <- Hseries in *. apply eq_true_iff_eq. rewrite includes_In, in_map_iff.
  split.
  - intros [s' [Heq Hs']]. apply filter_In in Hs'. destruct Hs' as [Hs' Hshown].
    now rewrite <- (@unique_id _ s' s Hids Hs' Hs Heq).
  - intro Hshown. exists s. split; [reflexivity|]. now apply filter_In.
Qed.

(** X9.  After the effect on a non-empty series list with unique ids, a
    series is visible exactly when it is not hidden, so the render model
    holds the datasets of the series that are not hidden; on an empty
    list the effect leaves the state as it is. *)
Theorem mount_shows_series_not_hidden :
  forall (lib : ChartLibrary) (theme : Theme.t) (props : Props.t) (st : State),
    (Props.series props <> [] ->
     NoDup (List.map DataSeries.id (Props.series props)) ->
     (forall s, In s (Props.series props) ->
                Array.includes (visibleSeries (initVisibleSeries props st)) (DataSeries.id s)
                = negb (bool_or (DataSeries.hidden s) false))
     /\ List.map Dataset.label (datasets (chartData theme props (initVisibleSeries props st)))
        = List.map DataSeries.label
            (List.filter (fun s => negb (bool_or (DataSeries.hidden s) false))
                         (Props.series props))
          ++ (if showTrendline st
              then List.map (fun s => (DataSeries.label s ++ " (Trend)")%string)
                     (List.filter (fun s => negb (bool_or (DataSeries.hidden s) false))
                                  (Props.series props))
              else []))
    /\ (Props.series props = [] -> initVisibleSeries props st = st).
Proof.
  intros lib theme props st. split.
  - intros Hsome Hids.
    assert (Hvis : forall s, In s (Props.series props) ->
              Array.includes (visibleSeries (initVisibleSeries props st)) (DataSeries.id s)
              = negb (bool_or (DataSeries.hidden s) false)).
    { intros s Hs. now apply initVisibleSeries_includes. }
    split; [exact Hvis|].
    assert (Hfilter :
      List.filter (visible_in (initVisibleSeries props st)) (Props.series props)
      = List.filter (fun s => negb (bool_or (DataSeries.hidden s) false))
                    (Props.series props)).
    { apply filter_ext_in. exact Hvis. }
    rewrite datasets_chartData, map_app, Hfilter.
    assert (Htrend : showTrendline (initVisibleSeries props st) = showTrendline st).
    { unfold initVisibleSeries. now destruct (0 <? _). }
    rewrite Htrend. rewrite map_map. simpl. f_equal.
    destruct (showTrendline st); [|reflexivity]. now rewrite map_map.
  - intro Hnone. unfold initVisibleSeries. now rewrite Hnone.
Qed.

Lemma mount_shows_series_not_hidden_witness :
  List.map Dataset.label
    (datasets (chartData Sample.theme (Sample.props_of [Sample.seriesA; Cases.hiddenB])
                 (initVisibleSeries (Sample.props_of [Sample.seriesA; Cases.hiddenB])
                    (Sample.state_of [] true false None))))
  = ["A"; "A (Trend)"]%string.
Proof.
  apply (proj1 (@mount_shows_series_not_hidden Reference.chart Sample.theme
                  (Sample.props_of [Sample.seriesA; Cases.hiddenB])
                  (Sample.state_of [] true false None))).
  - discriminate.
  - simpl. repeat constructor; simpl; intuition discriminate.
Defined.

(** X10.  Zooming out and then resetting: with a chart instance the chart
    is zoomed by 0.9 and reset, the parent is notified once by the reset,
    and the state is back to not zoomed; without a chart instance the zoom
    controls do nothing and Reset stays disabled. *)
Theorem zoom_then_reset :
  forall (lib : ChartLibrary) (rt : Runtime) (props : Props.t) (st : State),
    is_ChartView props = true ->
    Props.enableZoom props = true ->
    match chartInstance st with
    | Some chart =>
        run props st [ClickZoomOut; ClickResetZoom]
        = Some (setIsZoomed false st,
                [ChartCall chart (zoom 0x1.ccccccccccccdp-1%float);
                 ChartCall chart resetZoom]
                ++ (if Props.onRangeChange props
                    then [CallOnRangeChange (TimeRange.mk None None)]
                    else []))
    | None =>
        isZoomed st = false ->
        run props st [ClickZoomIn; ClickZoomOut; ClickResetZoom] = Some (st, [])
    end.
Proof.
  intros lib rt props st Hview Hzoom.
  destruct (chartInstance st) as [chart|] eqn:Hchart.
  - simpl. unfold handleZoomOut, handleResetZoom. rewrite Hview, Hzoom, Hchart. simpl.
    rewrite Hchart. simpl. now rewrite app_nil_r.
  - intro Hflag. simpl. unfold handleZoomIn, handleZoomOut.
    rewrite Hview, Hzoom, Hchart. simpl.
    rewrite Hchart. simpl. now rewrite Hflag.
Qed.

Lemma zoom_then_reset_witness :
  run (rt := Reference.runtime) (Sample.props_of [Sample.seriesA])
      (Sample.state_of ["A"]%string false false (Some Sample.canvas))
      [ClickZoomOut; ClickResetZoom]
  = Some (Sample.state_of ["A"]%string false false (Some Sample.canvas),
          [ChartCall Sample.canvas (zoom 0x1.ccccccccccccdp-1%float);
           ChartCall Sample.canvas resetZoom;
           CallOnRangeChange (TimeRange.mk None None)]).
Proof.
  apply (@zoom_then_reset Reference.chart Reference.runtime
           (Sample.props_of [Sample.seriesA])
           (Sample.state_of ["A"]%string false false (Some Sample.canvas)));
    reflexivity.
Defined.

(** ** A NaN among the values *)

Section NaN.
Local Open Scope float_scope.

Lemma SF_nan (x : float) : Prim2SF x = S754_nan -> x = nan.
Proof. intro H. rewrite <- (SF2Prim_Prim2SF x), H. reflexivity. Qed.

Lemma is_nan_eq (x : float) : is_nan x = true -> x = nan.
Proof.
  unfold is_nan. rewrite FloatAxioms.eqb_spec. intro H. apply SF_nan.
  destruct (Prim2SF x) as [s|s| |s m e]; try reflexivity; exfalso.
  - destruct s; discriminate.
  - destruct s; discriminate.
  - unfold SFeqb, SFcompare in H.
    rewrite Z.compare_refl, Pos.compare_cont_refl in H.
    destruct s; discriminate.
Qed.

Lemma add_nan_l (y : float) : nan + y = nan.
Proof. apply SF_nan. rewrite FloatAxioms.add_spec. reflexivity. Qed.

Lemma add_nan_r (x : float) : x + nan = nan.
Proof.
  apply SF_nan. rewrite FloatAxioms.add_spec. change (Prim2SF nan) with S754_nan.
  now destruct (Prim2SF x).
Qed.

Lemma sub_nan_l (y : float) : nan - y = nan.
Proof. apply SF_nan. rewrite FloatAxioms.sub_spec. reflexivity. Qed.

Lemma sub_nan_r (x : float) : x - nan = nan.
Proof.
  apply SF_nan. rewrite FloatAxioms.sub_spec. change (Prim2SF nan) with S754_nan.
  now destruct (Prim2SF x).
Qed.

Lemma mul_nan_l (y : float) : nan * y = nan.
Proof. apply SF_nan. rewrite FloatAxioms.mul_spec. reflexivity. Qed.

Lemma mul_nan_r (x : float) : x * nan = nan.
Proof.
  apply SF_nan. rewrite FloatAxioms.mul_spec. change (Prim2SF nan) with S754_nan.
  now destruct (Prim2SF x).
Qed.

Lemma div_nan_l (y : float) : nan / y = nan.
Proof. apply SF_nan. rewrite FloatAxioms.div_spec. reflexivity. Qed.
End NaN.

Lemma map_from_In (T B : Type) (f : T -> nat -> B) (arr : list T) (k : nat) (b : B) :
  In b (Array.map_from k f arr) -> exists elt i, In elt arr /\ b = f elt i.
Proof.
  revert k; induction arr as [|elt rest IH]; intros k H; simpl in H; [contradiction|].
  destruct H as [<-|H].
  - exists elt, k. split; [now left | reflexivity].
  - destruct (IH _ H) as [e [i [He Hb]]]. exists e, i. split; [now right | exact Hb].
Qed.

Lemma sum_with_nan (values : list float) (acc : float) :
  In nan values -> fold_left (fun a b => (a + b)%float) values acc = nan.
Proof.
  assert (Hnan : forall l, fold_left (fun a b => (a + b)%float) l nan = nan).
  { induction l as [|v rest IH]; simpl; [reflexivity|]. now rewrite add_nan_l. }
  revert acc; induction values as [|v rest IH]; intros acc Hin; [contradiction|].
  simpl. destruct Hin as [->|Hin]; [now rewrite add_nan_r | now apply IH].
Qed.

(** X11.  On doubles, one NaN among the y-values of two or more points
    makes every point of the trend line NaN. *)
Theorem trendline_of_nan_is_nan :
  forall (data : list (DataPoint.t float)) (p : DataPoint.t float),
    2 <= List.length data ->
    In p data -> PrimFloat.is_nan (DataPoint.y p) = true ->
    List.length (calculateTrendline data) = List.length data
    /\ forall q, In q (calculateTrendline data) ->
                 PrimFloat.is_nan (DataPoint.y q) = true.
Proof.
  intros data p Hlen Hp Hnan. split.
  - unfold calculateTrendline. destruct (Nat.ltb_spec (List.length data) 2) as [Hlt|_]; [lia|]. apply map_from_length.
  - intros q Hq. unfold calculateTrendline in Hq.
    destruct (Nat.ltb_spec (List.length data) 2) as [Hlt|_]; [lia|].
    apply map_from_In in Hq. destruct Hq as [elt [i [_ ->]]].
    cbn [DataPoint.y add sub mul div of_index float_arith].
    assert (HsumY : Array.reduce (fun a b => (a + b)%float)
                      (List.map (fun point => DataPoint.y point) data)
                      (PrimFloat.of_uint63 (Uint63.of_Z (Z.of_nat 0))) = nan).
    { apply sum_with_nan. apply is_nan_eq in Hnan. rewrite <- Hnan.
      apply in_map_iff. now exists p. }
    rewrite HsumY.
    rewrite mul_nan_r, sub_nan_r, div_nan_l, mul_nan_l, sub_nan_l, div_nan_l, add_nan_l.
    reflexivity.
Qed.

(** ** The trend of a straight line *)

Section LinearData.
Local Open Scope Q_scope.

Lemma Sigma_Q_ext (f g : nat -> Q) (n : nat) :
  (forall i, (i < n)%nat -> f i == g i) -> Sigma n f == Sigma n g.
Proof.
  induction n as [|n IH]; intro Hext; [reflexivity|].
  rewrite <- !Sigma_Q_succ. rewrite IH by (intros i Hi; apply Hext; lia).
  now rewrite (Hext n) by lia.
Qed.

Lemma Sigma_line (m c : Q) (n : nat) :
  Sigma n (fun i => m * idx i + c) == m * Sigma n idx + c * idx n
  /\ Sigma n (fun i => idx i * (m * idx i + c))
     == m * Sigma n (fun i => idx i * idx i) + c * Sigma n idx.
Proof.
  induction n as [|n [IH1 IH2]].
  - split; unfold Sigma; simpl; unfold idx; simpl; ring.
  - rewrite <- !Sigma_Q_succ, idx_succ, IH1, IH2. split; ring.
Qed.

Lemma ols_of_line (m c : Q) (ys : list Q) :
  (2 <= List.length ys)%nat ->
  (forall i, (i < List.length ys)%nat -> nth i ys 0 == m * idx i + c) ->
  ols_slope ys == m /\ ols_intercept ys == c.
Proof.
  intros Hn Hline.
  pose proof (@denominator_positive _ Hn) as HD.
  pose proof (@idx_ge_2 _ Hn) as HN.
  destruct (Sigma_line m c (List.length ys)) as [HSy HSxy].
  assert (Hy : Sigma (List.length ys) (fun i => nth i ys 0)
               == m * Sigma (List.length ys) idx + c * idx (List.length ys)).
  { rewrite <- HSy. now apply Sigma_Q_ext. }
  assert (Hxy : Sigma (List.length ys) (fun i => idx i * nth i ys 0)
                == m * Sigma (List.length ys) (fun i => idx i * idx i)
                   + c * Sigma (List.length ys) idx).
  { rewrite <- HSxy. apply Sigma_Q_ext. intros i Hi. now rewrite (Hline i Hi). }
  assert (Hslope : ols_slope ys == m).
  { unfold ols_slope.
    change (@of_index Q Q_arith) with idx.
    change (@mul Q Q_arith) with Qmult.
    change (@sub Q Q_arith) with Qminus.
    change (@div Q Q_arith) with Qdiv.
    change (@undefined_num Q Q_arith) with 0.
    rewrite Hy, Hxy.
    set (N := idx (List.length ys)) in *.
    set (Sx := Sigma (List.length ys) idx) in *.
    set (Sxx := Sigma (List.length ys) (fun i => idx i * idx i)) in *.
    field. intro H0. rewrite H0 in HD. exact (Qlt_irrefl 0 HD). }
  split; [exact Hslope|].
  unfold ols_intercept.
  change (@of_index Q Q_arith) with idx.
  change (@mul Q Q_arith) with Qmult.
  change (@sub Q Q_arith) with Qminus.
  change (@div Q Q_arith) with Qdiv.
  change (@undefined_num Q Q_arith) with 0.
  rewrite Hslope, Hy.
  set (N := idx (List.length ys)) in *.
  set (Sx := Sigma (List.length ys) idx) in *.
  field. intro H0. rewrite H0 in HN. now apply (Qle_not_lt _ _ HN).
Qed.
End LinearData.

Lemma trend_of_line :
  forall (data : list (DataPoint.t Q)) (m c : Q),
    2 <= List.length data ->
    (forall i p, nth_error data i = Some p -> (DataPoint.y p == m * idx i + c)%Q) ->
    forall i q,
      nth_error (calculateTrendline data) i = Some q ->
      exists p, nth_error data i = Some p
                /\ DataPoint.x q = DataPoint.x p
                /\ (DataPoint.y q == DataPoint.y p)%Q.
Proof.
  intros data m c Hlen Hline i q Hq.
  destruct (@ols_of_line m c (List.map (fun point => DataPoint.y point) data)) as [Hm Hc].
  - now rewrite length_map.
  - intros j Hj. rewrite length_map in Hj.
    destruct (nth_error data j) as [pj|] eqn:Hpj.
    + rewrite (nth_error_nth _ _ _ (map_nth_error _ _ _ Hpj)). now apply Hline.
    + apply nth_error_None in Hpj. lia.
  - pose proof (calculateTrendline_formula data Hlen) as Hformula.
    cbv zeta in Hformula.
    set (slope := ols_slope _) in *. set (intercept := ols_intercept _) in *.
    clearbody slope intercept.
    rewrite Hformula in Hq. unfold Array.mapi in Hq.
    rewrite map_from_nth_error in Hq.
    destruct (nth_error data i) as [p|] eqn:Hp; [|discriminate].
    injection Hq as <-. exists p. split; [reflexivity|]. split; [reflexivity|].
    change (slope * idx i + intercept == DataPoint.y p)%Q.
    rewrite Hm, Hc, (Hline i p Hp). reflexivity.
Qed.

(** ** The trend of a straight line, whole lists *)

Lemma Forall2_nth_error (T U : Type) (R : T -> U -> Prop) (l : list T) (l' : list U) :
  List.length l = List.length l' ->
  (forall i a b, nth_error l i = Some a -> nth_error l' i = Some b -> R a b) ->
  Forall2 R l l'.
Proof.
  revert l'; induction l as [|a l IH]; intros [|b l'] Hlen Hnth; try discriminate.
  - constructor.
  - constructor.
    + now apply (Hnth 0 a b).
    + apply IH; [simpl in Hlen; lia|].
      intros i a' b' Ha Hb. now apply (Hnth (S i) a' b').
Qed.

Section KeepsX.
Context {num : Type} {A : Arith num}.

Lemma calculateTrendline_length (data : list (DataPoint.t num)) :
  2 <= List.length data ->
  List.length (calculateTrendline data) = List.length data.
Proof.
  intro Hlen. rewrite (calculateTrendline_formula data Hlen).
  unfold Array.mapi. apply map_from_length.
Qed.

(** The trend keeps the x of every point. *)
Lemma calculateTrendline_keeps_x (data : list (DataPoint.t num)) :
  2 <= List.length data ->
  Forall2 (fun p q => DataPoint.x q = DataPoint.x p) data (calculateTrendline data).
Proof.
  intro Hlen. apply Forall2_nth_error.
  - symmetry. now apply calculateTrendline_length.
  - intros i p q Hp Hq.
    rewrite (calculateTrendline_formula data Hlen) in Hq. unfold Array.mapi in Hq.
    rewrite map_from_nth_error, Hp in Hq. now injection Hq as <-.
Qed.

Lemma calculateTrendline_twice_keeps_x (data : list (DataPoint.t num)) :
  Forall2 (fun p q => DataPoint.x q = DataPoint.x p)
          (calculateTrendline data) (calculateTrendline (calculateTrendline data)).
Proof.
  destruct (Nat.lt_ge_cases (List.length data) 2) as [Hshort|Hlen].
  - rewrite (calculateTrendline_short data Hshort). constructor.
  - apply calculateTrendline_keeps_x. now rewrite calculateTrendline_length.
Qed.
End KeepsX.

Lemma trend_of_line_all :
  forall (data : list (DataPoint.t Q)) (m c : Q),
    2 <= List.length data ->
    (forall i p, nth_error data i = Some p -> (DataPoint.y p == m * idx i + c)%Q) ->
    Forall2 (fun p q => DataPoint.x q = DataPoint.x p
                        /\ (DataPoint.y q == DataPoint.y p)%Q)
            data (calculateTrendline data).
Proof.
  intros data m c Hlen Hline. apply Forall2_nth_error.
  - symmetry. now apply calculateTrendline_length.
  - intros i p q Hp Hq.
    destruct (trend_of_line data Hlen Hline i Hq) as [p' [Hp' Hpq]].
    rewrite Hp in Hp'. now injection Hp' as <-.
Qed.

(** ** Lines with integer slope and intercept, on doubles *)

Lemma same_ys_Forall2 (ps qs : list (DataPoint.t float)) :
  same_ys ps qs = true ->
  Forall2 (fun p q => PrimFloat.eqb (DataPoint.y q) (DataPoint.y p) = true) ps qs.
Proof.
  revert qs; induction ps as [|p ps IH]; intros [|q qs] H; simpl in H; try discriminate.
  - constructor.
  - apply andb_true_iff in H. destruct H as [Hy Hrest]. constructor; auto.
Qed.

Lemma integers_upto_In (bound : nat) (z : Z) :
  (- Z.of_nat bound <= z <= Z.of_nat bound)%Z -> In z (integers_upto bound).
Proof.
  intro Hz. unfold integers_upto. apply in_map_iff.
  exists (Z.to_nat (z + Z.of_nat bound)). split; [lia|].
  apply in_seq. lia.
Qed.

Lemma integer_lines_checked : integer_lines_kept 10 11 = true.
Proof. vm_compute. reflexivity. Qed.

Lemma integer_line_length (m c : Z) (n : nat) : List.length (integer_line m c n) = n.
Proof. unfold integer_line. now rewrite length_map, length_seq. Qed.

Lemma Forall2_and (T U : Type) (R S : T -> U -> Prop) (l : list T) (l' : list U) :
  Forall2 R l l' -> Forall2 S l l' -> Forall2 (fun a b => R a b /\ S a b) l l'.
Proof.
  intro HR. induction HR as [|a b l l' Hab _ IH]; intro HS; inversion HS; subst;
    constructor; auto.
Qed.

(** X12.  The trend of two or more points that lie on a straight line
    over the indices is that line, point for point: in exact arithmetic
    for every line; on doubles for every line [y = m i + c] with integers
    [m] and [c] of magnitude up to 10 on up to 12 points.  On doubles it is
    not so for every line: the trend of 0.1, 0.1, 0.1 is
    0.10000000000000002 three times. *)
Theorem trendline_of_line_is_the_line :
  (forall (data : list (DataPoint.t Q)) (m c : Q),
      2 <= List.length data ->
      (forall i p, nth_error data i = Some p -> (DataPoint.y p == m * idx i + c)%Q) ->
      Forall2 (fun p q => DataPoint.x q = DataPoint.x p
                          /\ (DataPoint.y q == DataPoint.y p)%Q)
              data (calculateTrendline data))
  /\ (forall (m c : Z) (n : nat),
         2 <= n <= 12 ->
         (-10 <= m <= 10)%Z ->
         (-10 <= c <= 10)%Z ->
         Forall2 (fun p q => DataPoint.x q = DataPoint.x p
                             /\ PrimFloat.eqb (DataPoint.y q) (DataPoint.y p) = true)
                 (integer_line m c n) (calculateTrendline (integer_line m c n)))
  /\ List.map (fun q => DataPoint.y q) (calculateTrendline Cases.tenths)
     = [ 0x1.999999999999bp-4; 0x1.999999999999bp-4; 0x1.999999999999bp-4 ]%float.
Proof.
  split; [exact trend_of_line_all | split].
  - intros m c n Hn Hm Hc. apply Forall2_and.
    + apply calculateTrendline_keeps_x. rewrite integer_line_length. lia.
    + apply same_ys_Forall2.
      pose proof integer_lines_checked as Hall. unfold integer_lines_kept in Hall.
      rewrite forallb_forall in Hall.
      assert (Hin : In n (seq 2 11)) by (apply in_seq; lia).
      specialize (Hall n Hin). rewrite forallb_forall in Hall.
      specialize (Hall m (integers_upto_In 10 Hm)). rewrite forallb_forall in Hall.
      exact (Hall c (integers_upto_In 10 Hc)).
  - vm_compute. reflexivity.
Qed.

Lemma trendline_of_line_is_the_line_witness :
  Forall2 (fun p q => DataPoint.x q = DataPoint.x p
                      /\ (DataPoint.y q == DataPoint.y p)%Q)
          Cases.line_2i_plus_1 (calculateTrendline Cases.line_2i_plus_1)
  /\ Forall2 (fun p q => DataPoint.x q = DataPoint.x p
                         /\ PrimFloat.eqb (DataPoint.y q) (DataPoint.y p) = true)
             (integer_line (-3) 7 5) (calculateTrendline (integer_line (-3) 7 5)).
Proof.
  destruct trendline_of_line_is_the_line as [Hexact [Hdoubles _]]. split.
  - apply (Hexact Cases.line_2i_plus_1 2%Q 1%Q).
    + simpl. lia.
    + intros [|[|[|i]]] p Hp; try (destruct i; discriminate);
        injection Hp as <-; reflexivity.
  - apply Hdoubles; lia.
Defined.

(** X13.  The trend of a trend line has its length and its x-values,
    whatever the arithmetic; in exact arithmetic it has its y-values too:
    the estimator is idempotent.  On doubles the second pass can differ
    from the first in the last digits: on the series 0, 4, 1 the first
    pass starts with 1.1666666666666667 and the second with
    1.166666666666666. *)
Theorem trendline_idempotent :
  (forall (num : Type) (A : Arith num) (data : list (DataPoint.t num)),
      Forall2 (fun p q => DataPoint.x q = DataPoint.x p)
              (calculateTrendline data) (calculateTrendline (calculateTrendline data)))
  /\ (forall data : list (DataPoint.t Q),
         Forall2 (fun p q => DataPoint.x q = DataPoint.x p
                             /\ (DataPoint.y q == DataPoint.y p)%Q)
                 (calculateTrendline data) (calculateTrendline (calculateTrendline data)))
  /\ (List.map (fun q => DataPoint.y q) (calculateTrendline Cases.zigzag)
      = [ 0x1.2aaaaaaaaaaabp+0; 0x1.aaaaaaaaaaaabp+0; 0x1.1555555555556p+1 ]%float
      /\ List.map (fun q => DataPoint.y q)
                  (calculateTrendline (calculateTrendline Cases.zigzag))
         = [ 0x1.2aaaaaaaaaaa8p+0; 0x1.aaaaaaaaaaaaap+0; 0x1.1555555555556p+1 ]%float).
Proof.
  split; [|split].
  - intros num A data. apply calculateTrendline_twice_keeps_x.
  - intro data.
    destruct (Nat.lt_ge_cases (List.length data) 2) as [Hshort|Hlen].
    + rewrite (calculateTrendline_short data Hshort). constructor.
    + pose proof (calculateTrendline_formula data Hlen) as Hformula.
      cbv zeta in Hformula.
      set (slope := ols_slope _) in *. set (intercept := ols_intercept _) in *.
      apply (@trend_of_line_all (calculateTrendline data) slope intercept).
      * now rewrite calculateTrendline_length.
      * intros i p Hp. rewrite Hformula in Hp. unfold Array.mapi in Hp.
        rewrite map_from_nth_error in Hp.
        destruct (nth_error data i); [|discriminate]. injection Hp as <-. reflexivity.
  - split; vm_compute; reflexivity.
Qed.

(** ** The series of the station page *)

Section Station.
Variable Date_of_string : string -> Date.
Variables primary_main info_main : string.

Let chartData := StationDetails.chartData Date_of_string primary_main info_main.

Lemma station_series (data : list TimeSeriesDataPoint.t) :
  data <> [] ->
  exists level rain,
    chartData data = level :: (if existsb has_rainfall data then [rain] else [])
    /\ DataSeries.id level = "waterLevel"%string
    /\ DataSeries.label level = "Water Level"%string
    /\ DataSeries.hidden level = None
    /\ DataSeries.yAxisID level = None
    /\ DataSeries.data level
       = List.map (fun point =>
                     DataPoint.mk
                       (XDate (Date_of_string (TimeSeriesDataPoint.timestamp point)))
                       (TimeSeriesDataPoint.waterLevel point)) data
    /\ DataSeries.id rain = "rainfall"%string
    /\ DataSeries.label rain = "Rainfall"%string
    /\ DataSeries.hidden rain = None
    /\ DataSeries.yAxisID rain = Some "y1"%string
    /\ List.map (fun p => DataPoint.x p) (DataSeries.data rain)
       = List.map (fun point =>
                     XDate (Date_of_string (TimeSeriesDataPoint.timestamp point)))
                  (List.filter has_rainfall data).
Proof.
  intro Hsome. unfold chartData, StationDetails.chartData.
  destruct data as [|r0 rest]; [now elim Hsome|].
  cbn [List.length Nat.eqb].
  set (data := r0 :: rest).
  set (rainfallData := List.map _ (List.filter _ data)).
  assert (Hany : (0 <? List.length rainfallData) = existsb has_rainfall data).
  { unfold rainfallData. rewrite length_map. clearbody data. clear.
    induction data as [|r tl IH]; [reflexivity|]. simpl.
    destruct (has_rainfall r); simpl; [reflexivity | exact IH]. }
  rewrite Hany.
  eexists. exists (DataSeries.mk "rainfall" "Rainfall" rainfallData
                     (Some info_main) None (Some TypeBar) None None None None
                     (Some "y1"%string)).
  split; [destruct (existsb has_rainfall data); reflexivity|].
  repeat split. simpl. unfold rainfallData. now rewrite map_map.
Qed.
End Station.

Section StationChart.
Variable Date_of_string : string -> Date.
Variables primary_main info_main : string.

Let chartData := StationDetails.chartData Date_of_string primary_main info_main.

Lemma station_ids (data : list TimeSeriesDataPoint.t) :
  NoDup (List.map DataSeries.id (chartData data))
  /\ forall s, In s (chartData data) ->
               DataSeries.hidden s = None
               /\ (DataSeries.yAxisID s = None \/ DataSeries.yAxisID s = Some "y1"%string).
Proof.
  destruct data as [|r0 rest] eqn:Hdata.
  - split; [constructor | intros s []].
  - destruct (@station_series Date_of_string primary_main info_main (r0 :: rest))
      as (level & rain & Hseries & Hid & _ & Hhid & Haxis & _ & Hid' & _ & Hhid' & Haxis' & _);
      [discriminate|].
    unfold chartData. rewrite Hseries.
    destruct (existsb has_rainfall (r0 :: rest)); simpl; rewrite Hid; try rewrite Hid'.
    + split.
      * repeat constructor; simpl; intuition discriminate.
      * intros s [<-|[<-|[]]]; auto.
    + split.
      * repeat constructor; simpl; intuition discriminate.
      * intros s [<-|[]]; auto.
Qed.

Lemma station_invalid_date (data : list TimeSeriesDataPoint.t) :
  has_invalid_date (chartData data) ->
  exists point, In point data
                /\ Date_of_string (TimeSeriesDataPoint.timestamp point) = None.
Proof.
  intros [s [p [Hs [Hp Hx]]]].
  destruct data as [|r0 rest] eqn:Hdata; [contradiction|]. rewrite <- Hdata in *.
  destruct (@station_series Date_of_string primary_main info_main data)
    as (level & rain & Hseries & _ & _ & _ & _ & Hlevel & _ & _ & _ & _ & Hrain);
    [rewrite Hdata; discriminate|].
  unfold chartData in Hs. rewrite Hseries in Hs.
  assert (Hcases : s = level \/ s = rain).
  { destruct (existsb has_rainfall data); simpl in Hs; intuition. }
  destruct Hcases as [-> | ->].
  - rewrite Hlevel in Hp. apply in_map_iff in Hp. destruct Hp as [point [<- Hpoint]].
    exists point. split; [exact Hpoint|]. simpl in Hx. congruence.
  - assert (Hin : In (DataPoint.x p) (List.map (fun q => DataPoint.x q) (DataSeries.data rain)))
      by now apply in_map.
    rewrite Hrain in Hin. apply in_map_iff in Hin. destruct Hin as [point [Heq Hpoint]].
    apply filter_In in Hpoint. exists point. split; [tauto|]. congruence.
Qed.
End StationChart.

(** X14.  The series that the station page builds from its readings: none
    for no reading; otherwise "waterLevel", with one point per reading in
    their order, followed by "rainfall" (bars on the axis [y1]) exactly
    when some reading has a rainfall value, with one point for each such
    reading in their order.  The ids are unique, and a point has an
    invalid date only if the timestamp of a reading does not parse. *)
Theorem station_series_shape :
  forall (Date_of_string : string -> Date) (primary_main info_main : string)
         (data : list TimeSeriesDataPoint.t),
    let series := StationDetails.chartData Date_of_string primary_main info_main data in
    (data = [] -> series = [])
    /\ (data <> [] ->
        exists level rain,
          series = level :: (if existsb has_rainfall data then [rain] else [])
          /\ DataSeries.id level = "waterLevel"%string
          /\ DataSeries.data level
             = List.map (fun point =>
                           DataPoint.mk
                             (XDate (Date_of_string (TimeSeriesDataPoint.timestamp point)))
                             (TimeSeriesDataPoint.waterLevel point)) data
          /\ DataSeries.id rain = "rainfall"%string
          /\ DataSeries.type rain = Some TypeBar
          /\ DataSeries.yAxisID rain = Some "y1"%string
          /\ Forall2 (fun point p =>
                        DataPoint.x p
                        = XDate (Date_of_string (TimeSeriesDataPoint.timestamp point))
                        /\ TimeSeriesDataPoint.rainfall point = Some (DataPoint.y p))
                     (List.filter has_rainfall data) (DataSeries.data rain))
    /\ NoDup (List.map DataSeries.id series)
    /\ (has_invalid_date series ->
        exists point, In point data
                      /\ Date_of_string (TimeSeriesDataPoint.timestamp point) = None).
Proof.
  intros Date_of_string primary_main info_main data series. subst series.
  split; [|split; [|split]].
  - intros ->. reflexivity.
  - intro Hsome. unfold StationDetails.chartData.
    destruct data as [|r0 rest]; [now elim Hsome|].
    cbn [List.length Nat.eqb].
    set (data := r0 :: rest).
    set (rainfallData := List.map _ (List.filter _ data)).
    assert (Hany : (0 <? List.length rainfallData) = existsb has_rainfall data).
    { unfold rainfallData. rewrite length_map. clearbody data. clear.
      induction data as [|r tl IH]; [reflexivity|]. simpl.
      destruct (has_rainfall r); simpl; [reflexivity | exact IH]. }
    rewrite Hany.
    eexists. exists (DataSeries.mk "rainfall" "Rainfall" rainfallData
                       (Some info_main) None (Some TypeBar) None None None None
                       (Some "y1"%string)).
    split; [destruct (existsb has_rainfall data); reflexivity|].
    repeat split. cbn [DataSeries.data]. unfold rainfallData. clearbody data. clear.
    induction data as [|r tl IH]; [constructor|].
    cbn [List.filter]. destruct (has_rainfall r) eqn:Hhas; [|exact IH].
    cbn [List.map]. constructor; [|exact IH]. cbn [DataPoint.x DataPoint.y].
    unfold has_rainfall in Hhas.
    destruct (TimeSeriesDataPoint.rainfall r); [now split | discriminate].
  - apply (station_ids Date_of_string primary_main info_main data).
  - apply station_invalid_date.
Qed.

Lemma station_series_shape_witness :
  exists level rain,
    Cases.station_series = [level; rain]
    /\ DataSeries.id level = "waterLevel"%string
    /\ List.length (DataSeries.data level) = 3
    /\ DataSeries.id rain = "rainfall"%string
    /\ List.length (DataSeries.data rain) = 2.
Proof.
  destruct (station_series_shape Cases.Date_of_string "#1976d2" "#0288d1" Cases.readings)
    as [_ [Hshape _]].
  destruct Hshape as (level & rain & Hseries & Hid & Hdata & Hid' & _ & _ & Hrain);
    [discriminate|].
  exists level, rain. split; [exact Hseries|]. split; [exact Hid|].
  split; [now rewrite Hdata|]. split; [exact Hid'|].
  apply Forall2_length in Hrain. now rewrite <- Hrain.
Defined.

(** X17.  A threshold is marked on the y axis exactly when its annotation
    is on the scale [y]. *)
Theorem threshold_marker_matches_annotation :
  forall (p : AxisProps.t) (threshold : Threshold.t),
    In threshold (AxisProps.thresholds p) ->
    (In threshold (yAxisMarkers p)
     <-> string_or (Threshold.yAxisID threshold) "y" = "y"%string).
Proof.
  intros p threshold Hin. unfold yAxisMarkers. rewrite filter_In.
  destruct (Threshold.yAxisID threshold) as [axis|]; simpl.
  - destruct (String.eqb_spec axis EmptyString) as [->|Hne]; simpl.
    + tauto.
    + split.
      * intros [_ H]. now apply String.eqb_eq.
      * intro H. split; [exact Hin | now apply String.eqb_eq].
  - tauto.
Qed.

Lemma threshold_marker_matches_annotation_witness :
  In (Threshold.mk 5 "Deep" "#d32f2f" (Some "y1"%string))
     (yAxisMarkers
        (AxisProps.mk [Threshold.mk 5 "Deep" "#d32f2f" (Some "y1"%string)]
                      "Date" "Value" None None None))
  <-> string_or (Some "y1"%string) "y" = "y"%string.
Proof.
  apply (threshold_marker_matches_annotation
           (AxisProps.mk [Threshold.mk 5 "Deep" "#d32f2f" (Some "y1"%string)]
                         "Date" "Value" None None None)
           (Threshold.mk 5 "Deep" "#d32f2f" (Some "y1"%string))).
  simpl. now left.
Defined.

Lemma handleExportCSV_throws_iff_invalid_date_witness :
  handleExportCSV (rt := Reference.runtime) (Sample.props_of [Cases.broken])
                  "2024-01-01" (Sample.state_of ["level"]%string false false None)
  = None.
Proof.
  apply (proj2 (@handleExportCSV_throws_iff_invalid_date Reference.chart Reference.runtime
                  (Sample.props_of [Cases.broken]) "2024-01-01"%string
                  (Sample.state_of ["level"]%string false false None))).
  split; [discriminate|].
  exists Cases.broken, (DataPoint.mk (XDate None) 2%float).
  simpl. auto.
Defined.

Lemma trendline_of_nan_is_nan_witness :
  List.length (calculateTrendline (DataSeries.data Sample.gapped)) = 3
  /\ forall q, In q (calculateTrendline (DataSeries.data Sample.gapped)) ->
               PrimFloat.is_nan (DataPoint.y q) = true.
Proof.
  apply (trendline_of_nan_is_nan (DataSeries.data Sample.gapped) (Sample.point 2 nan)).
  - simpl. lia.
  - simpl. auto.
  - reflexivity.
Defined.

(** X18.  The border width, the point radius and the tension of a primary
    dataset are never zero and never NaN: a series that asks for 0 gets
    the default (2, 3 and 0.1). *)
Theorem primaryDataset_sizes_never_zero :
  forall (theme : Theme.t) (kind : ChartType) (s : DataSeries.t),
    let d := primaryDataset theme kind s in
    (PrimFloat.is_zero (Dataset.borderWidth d) = false
     /\ PrimFloat.is_nan (Dataset.borderWidth d) = false)
    /\ (PrimFloat.is_zero (Dataset.pointRadius d) = false
        /\ PrimFloat.is_nan (Dataset.pointRadius d) = false)
    /\ (PrimFloat.is_zero (Dataset.tension d) = false
        /\ PrimFloat.is_nan (Dataset.tension d) = false)
    /\ (DataSeries.borderWidth s = Some 0%float -> Dataset.borderWidth d = 2%float)
    /\ (DataSeries.pointRadius s = Some 0%float -> Dataset.pointRadius d = 3%float).
Proof.
  intros theme kind s d.
  assert (Hor : forall o default,
            PrimFloat.is_zero default = false -> PrimFloat.is_nan default = false ->
            PrimFloat.is_zero (number_or o default) = false
            /\ PrimFloat.is_nan (number_or o default) = false).
  { intros [v|] default Hz Hn; simpl; [|now split].
    destruct (PrimFloat.is_nan v || PrimFloat.is_zero v)%bool eqn:Hv; [now split|].
    apply orb_false_iff in Hv. tauto. }
  subst d. cbn [primaryDataset Dataset.borderWidth Dataset.pointRadius Dataset.tension].
  repeat split; try (apply Hor; reflexivity).
  - intros ->. reflexivity.
  - intros ->. reflexivity.
Qed.

Lemma primaryDataset_sizes_never_zero_witness :
  Dataset.borderWidth
    (primaryDataset Sample.theme line
       (DataSeries.mk "A" "A" [] None None None None None (Some 0%float) None None))
  = 2%float.
Proof.
  apply (primaryDataset_sizes_never_zero Sample.theme line
           (DataSeries.mk "A" "A" [] None None None None None (Some 0%float) None None)).
  reflexivity.
Defined.

(** X19.  Switching the chart type leaves the render model as it is when
    every visible series sets its own type; a trend dataset is a line
    whatever the chart type. *)
Theorem chart_type_switch_spares_typed_series :
  forall (lib : ChartLibrary) (theme : Theme.t) (props : Props.t) (st : State)
         (t : ChartType),
    (forall s, In s (Props.series props) ->
               Array.includes (visibleSeries st) (DataSeries.id s) = true ->
               DataSeries.type s <> None) ->
    chartData theme props (handleChartTypeChange t st) = chartData theme props st
    /\ forall s, Dataset.type (trendDataset theme s) = TypeLine.
Proof.
  intros lib theme props st t Htyped. split; [|reflexivity].
  unfold chartData. cbn [handleChartTypeChange setChartType visibleSeries showTrendline chartType].
  f_equal. f_equal. apply map_ext_in. intros s Hs. apply filter_In in Hs.
  destruct Hs as [Hs Hvis]. specialize (Htyped s Hs Hvis).
  unfold primaryDataset. destruct (DataSeries.type s); [reflexivity | now elim Htyped].
Qed.

Lemma chart_type_switch_spares_typed_series_witness :
  chartData Sample.theme
    (Sample.props_of [nth 1 Cases.station_series Sample.seriesA])
    (handleChartTypeChange bar (Sample.state_of ["rainfall"]%string false false None))
  = chartData Sample.theme
      (Sample.props_of [nth 1 Cases.station_series Sample.seriesA])
      (Sample.state_of ["rainfall"]%string false false None).
Proof.
  apply (@chart_type_switch_spares_typed_series Reference.chart Sample.theme
           (Sample.props_of [nth 1 Cases.station_series Sample.seriesA])
           (Sample.state_of ["rainfall"]%string false false None) bar).
  intros s [<-|[]] _. discriminate.
Defined.
